(** * Grade prediction and hybrid course recommendation

    A shallow embedding of [backend/app/ml/predict.py] (the classes
    [GradePredictor] and [CourseRecommender]) and of the response shaping of
    the [/predict-grade] endpoint in [backend/app/main.py]; then of the
    endpoints [/predict-grade], [/recommendations] and [/stats] over a model
    of the record store, of the recommender trainer of
    [backend/app/ml/train.py] and of the enrolment rows made by
    [backend/generate_sample_data.py].

    Numbers.  Python floats are modelled as exact rationals [Q]; ordering
    tests are the boolean tests of the source ([>], [>=]).  The square root
    behind [np.std] and the vector similarity behind sklearn's
    [cosine_similarity] are not rational functions: they are parameters of
    the development.  Rationals do not round.  Where a property depends on
    the rounding of a product or of a quotient, the computation is run on
    binary64 numbers as well, with the primitive floats of Rocq
    ([course_score_f64]).

    Containers.  A Python [dict] keyed by strings is a [gmap string Q]; a
    pandas [DataFrame] is a record of row labels, column labels and a list
    of rows; a pandas [Series] is a list of (label, value) pairs in index
    order.  A [KeyError] or [IndexError] raised by a lookup is [None]. *)

From Stdlib Require Import PrimFloat.
From Stdlib Require Import QArith Qround Lqa.
From stdpp Require Import gmap strings list sorting.

Local Open Scope string_scope.

(** ** Numeric helpers *)

Module Num.

(** [x < y] as the boolean test the source evaluates. *)
Definition Qlt_bool (x y : Q) : bool := negb (Qle_bool y x).

(** Python's [max(a, b)]: [b] replaces [a] only when [b > a]. *)
Definition py_max (a b : Q) : Q := if Qlt_bool a b then b else a.

(** Python's [min(a, b)]: [b] replaces [a] only when [b < a]. *)
Definition py_min (a b : Q) : Q := if Qlt_bool b a then b else a.

(** [np.clip(x, lo, hi)] is [minimum(maximum(x, lo), hi)]. *)
Definition np_clip (x lo hi : Q) : Q := py_min (py_max x lo) hi.

(** Python's [sum]: a left fold from the integer [0]. *)
Definition py_sum (l : list Q) : Q := fold_left Qplus l 0%Q.

(** [len(l)] as a number. *)
Definition py_len {A} (l : list A) : Q := inject_Z (Z.of_nat (length l)).

(** Rounding to the nearest integer, halves to the even neighbour. *)
Definition round_half_even (x : Q) : Z :=
  let f := Qfloor x in
  let r := (x - inject_Z f)%Q in
  if Qlt_bool r (1 # 2) then f
  else if Qlt_bool (1 # 2) r then (f + 1)%Z
  else if Z.even f then f else (f + 1)%Z.

(** Python's [round(x, 2)]. *)
Definition py_round2 (x : Q) : Q := (inject_Z (round_half_even (x * 100)) / 100)%Q.

(** [np.mean] of a one-dimensional array. *)
Definition np_mean (l : list Q) : Q := (py_sum l / py_len l)%Q.

(** The mean of squared deviations, whose square root is [np.std]. *)
Definition np_var (l : list Q) : Q :=
  let m := np_mean l in
  np_mean ((fun x => (x - m) * (x - m))%Q <$> l).

(** Python's [l[:n]]: a negative [n] counts from the end. *)
Definition py_slice_to {A} (n : Z) (l : list A) : list A :=
  if (0 <=? n)%Z then take (Z.to_nat n) l
  else take (Z.to_nat (Z.of_nat (length l) + n)) l.

End Num.
Export Num.

(** ** pandas *)

Module Pandas.

Record DataFrame := {
  df_index : list string;
  df_columns : list string;
  df_values : list (list Q)
}.

(** A [Series]: values labelled by an index, in index order. *)
Definition Series := list (string * Q).

(** [Index.get_loc]: the position of a label, [KeyError] when absent. *)
Fixpoint get_loc (l : string) (ls : list string) : option nat :=
  match ls with
  | [] => None
  | x :: ls' => if decide (x = l) then Some 0%nat else S <$> get_loc l ls'
  end.

(** [df.loc[r, c]]. *)
Definition df_loc (df : DataFrame) (r c : string) : option Q :=
  i ← get_loc r (df_index df);
  j ← get_loc c (df_columns df);
  row ← df_values df !! i;
  row !! j.

(** [df[c]]: the column labelled [c] as a Series over the row labels. *)
Definition df_getitem (df : DataFrame) (c : string) : option Series :=
  j ← get_loc c (df_columns df);
  mapM (fun lr : string * list Q => (fun v => (lr.1, v)) <$> lr.2 !! j)
       (zip (df_index df) (df_values df)).

(** Insertion of an element in a list sorted by value, descending; the new
    element goes before the elements of equal value. *)
Fixpoint insert_desc {A} (x : A * Q) (l : list (A * Q)) : list (A * Q) :=
  match l with
  | [] => [x]
  | y :: l' => if Qle_bool y.2 x.2 then x :: y :: l' else y :: insert_desc x l'
  end.

(** Stable sort by value, descending: elements of equal value keep their
    original order.  This is [sorted(items, key=lambda x: x[1],
    reverse=True)] and the order of [Series.nlargest] ([keep='first']). *)
Definition sort_desc {A} (l : list (A * Q)) : list (A * Q) :=
  foldr insert_desc [] l.

(** [Series.nlargest(n)]; empty when [n <= 0]. *)
Definition nlargest (n : Z) (s : Series) : Series :=
  take (Z.to_nat n) (sort_desc s).

(** [(df > 0).sum(axis=0)]: per column, the number of rows whose cell is
    positive. *)
Definition positive_count (df : DataFrame) (j : nat) : Q :=
  py_len (filter (fun row : list Q => Qlt_bool 0 (default 0%Q (row !! j)) = true)
                 (df_values df)).

Definition count_positive (df : DataFrame) : Series :=
  imap (fun j c => (c, positive_count df j)) (df_columns df).

(** The shape invariants of a frame: as many rows as row labels, every row
    as wide as the column labels, labels unique (as [pivot_table] builds
    them). *)
Definition wf_frame (df : DataFrame) : Prop :=
  NoDup (df_index df) ∧ NoDup (df_columns df) ∧
  length (df_values df) = length (df_index df) ∧
  Forall (fun row => length row = length (df_columns df)) (df_values df).

End Pandas.
Export Pandas.

(** ** [GradePredictor] *)

Module Grade.

(** The fitted regression model: its [predict] on one scaled row, and
    [n_estimators] when the object has a [get_booster] attribute (the
    XGBoost regressor the training script saves). *)
Record Model := {
  model_predict : list Q → Q;
  n_estimators : option Z
}.

(** The artifact loaded by [GradePredictor.__init__]. *)
Record GradePredictor := {
  model : Model;
  scaler_transform : list Q → list Q;
  feature_names : list string
}.

Section Predict.

(** The square root used by [np.std]. *)
Variable np_sqrt : Q → Q.

Definition np_std (l : list Q) : Q := np_sqrt (np_var l).

(** The loop [for feat_name in self.feature_names:
    feature_values.append(features.get(feat_name, 0))]. *)
Definition feature_values (gp : GradePredictor) (features : gmap string Q) : list Q :=
  fold_left (fun acc feat_name => (acc ++ [default 0%Q (features !! feat_name)])%list)
            (feature_names gp) [].

(** The spread proxy: the same prediction repeated
    [min(10, n_estimators)] times when the model is a booster. *)
Definition std_dev (m : Model) (X_scaled : list Q) : Q :=
  match n_estimators m with
  | Some n =>
      let leaf_preds := replicate (Z.to_nat (Z.min 10 n)) (model_predict m X_scaled) in
      if (1 <? length leaf_preds)%nat then np_std leaf_preds else 0.2%Q
  | None => 0.2%Q
  end.

(** [GradePredictor.predict]: the pair (predicted grade, confidence
    interval). *)
Definition predict (gp : GradePredictor) (features : gmap string Q) : Q * Q :=
  let X := feature_values gp features in
  let X_scaled := scaler_transform gp X in
  let pred := model_predict (model gp) X_scaled in
  let pred := np_clip pred 0 4 in
  let confidence_interval := (1.96 * std_dev (model gp) X_scaled)%Q in
  (pred, confidence_interval).

End Predict.

End Grade.
Export Grade.

(** ** The [/predict-grade] response *)

Module Endpoint.

(** [grade_to_letter], the function nested in [predict_grade]. *)
Definition grade_to_letter (grade : Q) : string :=
  if Qle_bool 3.7 grade then "A"
  else if Qle_bool 3.3 grade then "A-"
  else if Qle_bool 3.0 grade then "B+"
  else if Qle_bool 2.7 grade then "B"
  else if Qle_bool 2.3 grade then "B-"
  else if Qle_bool 2.0 grade then "C+"
  else if Qle_bool 1.7 grade then "C"
  else if Qle_bool 1.3 grade then "C-"
  else if Qle_bool 1.0 grade then "D"
  else "F".

Definition lower_bound (predicted_grade confidence_interval : Q) : Q :=
  py_max 0 (predicted_grade - confidence_interval).

Definition upper_bound (predicted_grade confidence_interval : Q) : Q :=
  py_min 4 (predicted_grade + confidence_interval).

(** The numeric fields of [PredictGradeResponse]. *)
Record PredictGradeResponse := {
  predicted_grade : Q;
  confidence_interval : Q;
  grade_range_lower : Q;
  grade_range_upper : Q;
  letter_grade : string
}.

(** The response built at the end of [predict_grade] from the output of
    [GradePredictor.predict]. *)
Definition predict_grade_response (np_sqrt : Q → Q) (gp : GradePredictor)
    (features : gmap string Q) : PredictGradeResponse :=
  let '(pred, ci) := predict np_sqrt gp features in
  {| predicted_grade := py_round2 pred;
     confidence_interval := py_round2 ci;
     grade_range_lower := py_round2 (lower_bound pred ci);
     grade_range_upper := py_round2 (upper_bound pred ci);
     letter_grade := grade_to_letter pred |}.

End Endpoint.
Export Endpoint.

(** ** [CourseRecommender] *)

Module Recommender.

(** The [course_features] entry of the recommender artifact: the course
    identifiers and, aligned with them, the rows of the feature matrix. *)
Record CourseFeatures := {
  course_ids : list string;
  features : list (list Q)
}.

(** The artifact loaded by [CourseRecommender.__init__]. *)
Record CourseRecommender := {
  user_item_matrix : DataFrame;
  user_similarity : DataFrame;
  course_features : CourseFeatures
}.

(** [self.user_similarity[student_id].nlargest(k + 1).index[1:]]. *)
Definition similar_users (cr : CourseRecommender) (student_id : string) (k : Z)
    : option (list string) :=
  col ← df_getitem (user_similarity cr) student_id;
  Some (drop 1 (nlargest (k + 1) col).*1).

(** The inner loop over the neighbours: the positive ratings of a course
    and, aligned with them, the similarities of the raters. *)
Fixpoint collect_ratings (cr : CourseRecommender) (student_id course_id : string)
    (users : list string) : option (list Q * list Q) :=
  match users with
  | [] => Some ([], [])
  | similar_user :: rest =>
      rating ← df_loc (user_item_matrix cr) similar_user course_id;
      if Qlt_bool 0 rating then
        s ← df_loc (user_similarity cr) student_id similar_user;
        '(ratings, similarities) ← collect_ratings cr student_id course_id rest;
        Some (rating :: ratings, s :: similarities)
      else collect_ratings cr student_id course_id rest
  end.

(** The score of one course from the collected ratings. *)
Definition course_score (similar_user_ratings similarities : list Q) : Q :=
  match similar_user_ratings with
  | [] => 0%Q
  | _ =>
      let weighted_sum := py_sum (zip_with Qmult similar_user_ratings similarities) in
      let similarity_sum := py_sum similarities in
      if Qlt_bool 0 similarity_sum then (weighted_sum / similarity_sum)%Q else 0%Q
  end.

(** The outer loop over the columns of the user-item matrix. *)
Fixpoint score_columns (cr : CourseRecommender) (student_id : string)
    (users : list string) (columns : list string) (scores : gmap string Q)
    : option (gmap string Q) :=
  match columns with
  | [] => Some scores
  | course_id :: rest =>
      own ← df_loc (user_item_matrix cr) student_id course_id;
      if Qlt_bool 0 own then score_columns cr student_id users rest scores
      else
        '(ratings, similarities) ← collect_ratings cr student_id course_id users;
        score_columns cr student_id users rest
                      (<[course_id := course_score ratings similarities]> scores)
  end.

(** [CourseRecommender.get_collaborative_scores]. *)
Definition get_collaborative_scores (cr : CourseRecommender) (student_id : string)
    (k : Z) : option (gmap string Q) :=
  if decide (student_id ∈ df_index (user_item_matrix cr)) then
    users ← similar_users cr student_id k;
    score_columns cr student_id users (df_columns (user_item_matrix cr)) ∅
  else Some ∅.

(** [{course_id: 0.5 for course_id in self.course_features['course_ids']}]. *)
Definition flat_scores (cf : CourseFeatures) : gmap string Q :=
  fold_left (fun scores course_id => <[course_id := 0.5%Q]> scores) (course_ids cf) ∅.

(** [[i for i, cid in enumerate(course_ids) if cid in enrolled_courses]]. *)
Definition enrolled_indices (cf : CourseFeatures) (enrolled_courses : list string)
    : list nat :=
  (filter (fun ic : nat * string => ic.2 ∈ enrolled_courses)
          (imap (fun i cid => (i, cid)) (course_ids cf))).*1.

(** [rows.mean(axis=0)] of a non-empty block of rows. *)
Definition mean_axis0 (rows : list (list Q)) : list Q :=
  match rows with
  | [] => []
  | r :: rs => (fun s => (s / py_len rows)%Q) <$> fold_left (zip_with Qplus) rs r
  end.

(** The last loop of the content scorer, over [enumerate(course_ids)]. *)
Fixpoint content_loop (enrolled_courses : list string) (similarities : list Q)
    (items : list (nat * string)) (scores : gmap string Q) : option (gmap string Q) :=
  match items with
  | [] => Some scores
  | (i, course_id) :: rest =>
      if decide (course_id ∈ enrolled_courses)
      then content_loop enrolled_courses similarities rest scores
      else
        v ← similarities !! i;
        content_loop enrolled_courses similarities rest (<[course_id := v]> scores)
  end.

Section Hybrid.

(** sklearn's [cosine_similarity] between the profile and one row. *)
Variable cosine_similarity : list Q → list Q → Q.

(** The iteration order of a Python [set] of strings. *)
Variable set_iter : gset string → list string.

(** [CourseRecommender.get_content_based_scores]; the student identifier
    is not read by the source. *)
Definition get_content_based_scores (cr : CourseRecommender)
    (enrolled_courses : list string) : option (gmap string Q) :=
  let cf := course_features cr in
  match enrolled_courses with
  | [] => Some (flat_scores cf)
  | _ =>
      match enrolled_indices cf enrolled_courses with
      | [] => Some (flat_scores cf)
      | indices =>
          enrolled_features ← mapM (fun i => features cf !! i) indices;
          let avg_student_profile := mean_axis0 enrolled_features in
          let similarities := cosine_similarity avg_student_profile <$> features cf in
          content_loop enrolled_courses similarities
                       (imap (fun i cid => (i, cid)) (course_ids cf)) ∅
      end
  end.

(** The body of the loop over [all_courses]. *)
Definition hybrid_score (cf_weight cb_weight : Q) (cf_scores cb_scores : gmap string Q)
    (course_id : string) : Q :=
  let cf_score := default 0%Q (cf_scores !! course_id) in
  let cb_score := default 0%Q (cb_scores !! course_id) in
  let cf_score_norm := if Qlt_bool 0 cf_score then (cf_score / 4.0)%Q else 0%Q in
  let cb_score_norm := cb_score in
  (cf_weight * cf_score_norm + cb_weight * cb_score_norm)%Q.

(** [hybrid_scores.items()]: one entry per element of [all_courses], in
    the order the set is iterated. *)
Definition hybrid_scores (cf_weight cb_weight : Q) (cf_scores cb_scores : gmap string Q)
    : list (string * Q) :=
  let all_courses := dom cf_scores ∪ dom cb_scores in
  (fun course_id => (course_id, hybrid_score cf_weight cb_weight cf_scores cb_scores course_id))
    <$> set_iter all_courses.

(** [CourseRecommender.recommend]. *)
Definition recommend (cr : CourseRecommender) (student_id : string)
    (enrolled_courses : list string) (n : Z) (cf_weight cb_weight : Q)
    : option (list (string * Q)) :=
  cf_scores ← get_collaborative_scores cr student_id 10;
  cb_scores ← get_content_based_scores cr enrolled_courses;
  let sorted_recommendations :=
    sort_desc (hybrid_scores cf_weight cb_weight cf_scores cb_scores) in
  Some (py_slice_to n sorted_recommendations).

(** [recommend] with the default weights of its signature. *)
Definition recommend_default (cr : CourseRecommender) (student_id : string)
    (enrolled_courses : list string) (n : Z) : option (list (string * Q)) :=
  recommend cr student_id enrolled_courses n 0.6 0.4.

End Hybrid.

(** [CourseRecommender.get_popular_courses]. *)
Definition get_popular_courses (cr : CourseRecommender) (n : Z) : list string :=
  let course_popularity := count_positive (user_item_matrix cr) in
  (nlargest n course_popularity).*1.

End Recommender.
Export Recommender.

(** ** Vocabulary of the statements

    The words of the specification about the recommender artifact, as
    definitions to compare the code with. *)

Module Reference.

(** The artifact is aligned: both frames are well shaped, and the
    similarity matrix is square over the row labels of the user-item
    matrix, as the training script builds it. *)
Definition aligned (cr : CourseRecommender) : Prop :=
  wf_frame (user_item_matrix cr) ∧ wf_frame (user_similarity cr) ∧
  df_index (user_similarity cr) = df_index (user_item_matrix cr) ∧
  df_columns (user_similarity cr) = df_index (user_item_matrix cr).

(** The rating a student gave a course; 0 stands for no rating. *)
Definition rating_of (cr : CourseRecommender) (student_id course_id : string) : Q :=
  default 0%Q (df_loc (user_item_matrix cr) student_id course_id).

(** The similarity the scorer weighs a neighbour with. *)
Definition similarity_of (cr : CourseRecommender) (student_id neighbour : string) : Q :=
  default 0%Q (df_loc (user_similarity cr) student_id neighbour).

(** The student has a positive rating for the course. *)
Definition rated (cr : CourseRecommender) (student_id course_id : string) : Prop :=
  Qlt_bool 0 (rating_of cr student_id course_id) = true.

#[global] Instance rated_dec (cr : CourseRecommender) (student_id course_id : string) :
  Decision (rated cr student_id course_id) :=
  decide (Qlt_bool 0 (rating_of cr student_id course_id) = true).

(** The neighbours who rated the course, in neighbour order. *)
Definition contributing (cr : CourseRecommender) (course_id : string)
    (neighbours : list string) : list string :=
  filter (fun u => rated cr u course_id) neighbours.

Definition similarity_sum (cr : CourseRecommender) (student_id : string)
    (users : list string) : Q :=
  py_sum (similarity_of cr student_id <$> users).

Definition weighted_sum (cr : CourseRecommender) (student_id course_id : string)
    (users : list string) : Q :=
  py_sum ((fun u => (rating_of cr u course_id * similarity_of cr student_id u)%Q) <$> users).

(** Every cell of the student's row is zero. *)
Definition all_zero_row (cr : CourseRecommender) (student_id : string) : Prop :=
  ∀ course_id, course_id ∈ df_columns (user_item_matrix cr) →
    (rating_of cr student_id course_id == 0)%Q.

(** The hybrid score in the words of the specification: the collaborative
    score divided by 4.0 only when strictly positive, a course absent from
    a mapping contributing 0. *)
Definition spec_hybrid_score (cf_weight cb_weight : Q) (cf_scores cb_scores : gmap string Q)
    (course_id : string) : Q :=
  let normalized_cf :=
    match cf_scores !! course_id with
    | Some s => if Qlt_bool 0 s then (s / 4.0)%Q else 0%Q
    | None => 0%Q
    end in
  let cb :=
    match cb_scores !! course_id with
    | Some s => s
    | None => 0%Q
    end in
  (cf_weight * normalized_cf + cb_weight * cb)%Q.

(** The number of non-zero cells of a column, the count the specification
    ranks by. *)
Definition nonzero_count (df : DataFrame) (j : nat) : Q :=
  py_len (filter (fun row : list Q => Qeq_bool (default 0%Q (row !! j)) 0 = false)
                 (df_values df)).

(** The content scorer has no signal: the enrolment list is empty, or none
    of its courses occurs in the course-ID list of the feature matrix. *)
Definition cold_start (cf : CourseFeatures) (enrolled_courses : list string) : Prop :=
  enrolled_courses = [] ∨ ∀ c, c ∈ enrolled_courses → c ∉ course_ids cf.

End Reference.
Export Reference.

(** ** Concrete artifacts used to exercise the definitions *)

Module Examples.

(** A rational lower approximation of the square root. *)
Definition approx_sqrt (x : Q) : Q :=
  Z.sqrt (Qnum x * Z.pos (Qden x)) # Qden x.

Definition dot (a b : list Q) : Q := py_sum (zip_with Qmult a b).

(** A cosine similarity computed with [approx_sqrt]; zero vectors have
    similarity 0, as sklearn normalises them. *)
Definition approx_cosine (a b : list Q) : Q :=
  let na := approx_sqrt (dot a a) in
  let nb := approx_sqrt (dot b b) in
  if Qlt_bool 0 (na * nb) then (dot a b / (na * nb))%Q else 0%Q.

(** The sixteen feature names of the training script, in its order. *)
Definition trained_features : list string :=
  ["hist_mean_grade"; "hist_std_grade"; "hist_course_count";
   "hist_avg_attendance"; "hist_avg_completion";
   "credits"; "topic_count"; "difficulty_num";
   "high_school_gpa"; "year"; "age";
   "attendance_rate"; "assignment_completion_rate";
   "total_interaction_value"; "avg_interaction_value"; "interaction_count"].

(** A booster with 200 estimators whose prediction is the sum of the scaled
    inputs; the scaler divides every value by 4. *)
Definition demo_predictor : GradePredictor :=
  {| model := {| model_predict := py_sum; n_estimators := Some 200%Z |};
     scaler_transform := fmap (fun x => (x / 4)%Q);
     feature_names := trained_features |}.

(** A feature dictionary that lacks most of the trained names. *)
Definition demo_features : gmap string Q :=
  {[ "hist_mean_grade" := 3.1%Q; "credits" := 3%Q; "high_school_gpa" := 3.6%Q ]}.

(** Three students and three courses.  [cat] completed a course with grade
    0: her row is present and all zero. *)
Definition campus : CourseRecommender :=
  {| user_item_matrix :=
       {| df_index := ["ann"; "bob"; "cat"];
          df_columns := ["cs101"; "ma201"; "ph301"];
          df_values := [[3.0; 0; 0]; [3.0; 3.5; 0]; [0; 0; 0]]%Q |};
     user_similarity :=
       {| df_index := ["ann"; "bob"; "cat"];
          df_columns := ["ann"; "bob"; "cat"];
          df_values := [[1; 0.65; 0]; [0.65; 1; 0]; [0; 0; 0]]%Q |};
     course_features :=
       {| course_ids := ["cs101"; "ma201"; "ph301"];
          features := [[1; 0]; [1; 1]; [0; 1]]%Q |} |}.

(** Two students with the same ratings: every similarity is 1, and both
    courses have two positive cells. *)
Definition twins : CourseRecommender :=
  {| user_item_matrix :=
       {| df_index := ["a"; "b"];
          df_columns := ["c1"; "c2"];
          df_values := [[3; 2]; [3; 2]]%Q |};
     user_similarity :=
       {| df_index := ["a"; "b"];
          df_columns := ["a"; "b"];
          df_values := [[1; 1]; [1; 1]]%Q |};
     course_features := {| course_ids := ["c1"; "c2"]; features := [[1]; [1]]%Q |} |}.

End Examples.
Export Examples.

(** ** Rows of the record store

    The tables the endpoints query, with the fields the code reads.  A
    nullable column is an [option]; integers are [Z]. *)

Module Store.

Record EnrollmentRow := {
  en_student_id : string;
  en_course_id : string;
  en_status : string;
  en_grade : option Q;
  en_attendance_rate : option Q;
  en_assignment_completion_rate : option Q
}.

Record ProfileRow := {
  pr_high_school_gpa : Q;
  pr_year : Z;
  pr_age : option Z
}.

Record CourseRow := {
  co_code : string;
  co_title : string;
  co_department : string;
  co_credits : Z;
  co_difficulty : string;
  co_topics : option (list string)
}.

Record InteractionRow := {
  ia_student_id : string;
  ia_value : Q
}.

(** Profiles and courses are keyed by their [id]. *)
Record Tables := {
  profiles : gmap string ProfileRow;
  courses : gmap string CourseRow;
  enrollments : list EnrollmentRow;
  interactions : list InteractionRow
}.

(** [table('enrollments').select('*').eq('student_id', user_id)]. *)
Definition enrollments_of (db : Tables) (user_id : string) : list EnrollmentRow :=
  filter (fun e => en_student_id e = user_id) (enrollments db).

(** The same query with [.eq('status', 'completed')]. *)
Definition completed_enrollments_of (db : Tables) (user_id : string) : list EnrollmentRow :=
  filter (fun e => en_status e = "completed") (enrollments_of db user_id).

(** [table('interactions').select('*').eq('student_id', user_id)]. *)
Definition interactions_of (db : Tables) (user_id : string) : list InteractionRow :=
  filter (fun i => ia_student_id i = user_id) (interactions db).

End Store.
Export Store.

(** ** [GradePredictor.predict_batch] *)

Module Batch.

(** The loop [for features in features_list: pred, ci =
    self.predict(features); predictions.append((pred, ci))]. *)
Definition predict_batch (np_sqrt : Q → Q) (gp : GradePredictor)
    (features_list : list (gmap string Q)) : list (Q * Q) :=
  fold_left (fun predictions features =>
               let '(pred, ci) := predict np_sqrt gp features in
               (predictions ++ [(pred, ci)])%list)
            features_list [].

End Batch.
Export Batch.

(** ** The feature dictionaries built by the endpoints *)

Module Features.

(** [sum(l) / len(l) if l else 0.0]. *)
Definition mean_or_zero (l : list Q) : Q :=
  match l with
  | [] => 0.0%Q
  | _ => (py_sum l / py_len l)%Q
  end.

(** [pd.Series(l).std()]: the sample standard deviation. *)
Definition pd_std (np_sqrt : Q → Q) (l : list Q) : Q :=
  let m := (py_sum l / py_len l)%Q in
  np_sqrt (py_sum ((fun x => (x - m) * (x - m))%Q <$> l) / (py_len l - 1))%Q.

(** [difficulty_map.get(difficulty, 2)]. *)
Definition difficulty_num (difficulty : string) : Q :=
  if decide (difficulty = "Beginner") then 1%Q
  else if decide (difficulty = "Intermediate") then 2%Q
  else if decide (difficulty = "Advanced") then 3%Q
  else 2%Q.

(** [len(course['topics']) if course['topics'] else 0]. *)
Definition topic_count (topics : option (list string)) : Q :=
  match topics with
  | Some (t :: ts) => py_len (t :: ts)
  | _ => 0%Q
  end.

(** [profile['age'] if profile['age'] else 20]: a null age and the age 0
    are both replaced. *)
Definition age_or_default (age : option Z) : Q :=
  match age with
  | Some a => if (a =? 0)%Z then 20%Q else inject_Z a
  | None => 20%Q
  end.

(** The dictionary [features] of [predict_grade], from the rows the
    endpoint fetched: the profile, the completed enrolments, the course
    and the interactions. *)
Definition build_features (np_sqrt : Q → Q) (profile : ProfileRow)
    (enrollments : list EnrollmentRow) (course : CourseRow)
    (interactions : list InteractionRow) : gmap string Q :=
  let completed_grades := omap en_grade enrollments in
  let hist_mean_grade := mean_or_zero completed_grades in
  let hist_std_grade :=
    if (1 <? length completed_grades)%nat then pd_std np_sqrt completed_grades
    else 0.0%Q in
  let hist_course_count := py_len enrollments in
  let attendance_rates := omap en_attendance_rate enrollments in
  let hist_avg_attendance := mean_or_zero attendance_rates in
  let completion_rates := omap en_assignment_completion_rate enrollments in
  let hist_avg_completion := mean_or_zero completion_rates in
  let interaction_values := ia_value <$> interactions in
  let total_interaction_value := py_sum interaction_values in
  let avg_interaction_value := mean_or_zero interaction_values in
  let interaction_count := py_len interactions in
  list_to_map
    [("hist_mean_grade", hist_mean_grade);
     ("hist_std_grade", hist_std_grade);
     ("hist_course_count", hist_course_count);
     ("hist_avg_attendance", hist_avg_attendance);
     ("hist_avg_completion", hist_avg_completion);
     ("credits", inject_Z (co_credits course));
     ("topic_count", topic_count (co_topics course));
     ("difficulty_num", difficulty_num (co_difficulty course));
     ("high_school_gpa", pr_high_school_gpa profile);
     ("year", inject_Z (pr_year profile));
     ("age", age_or_default (pr_age profile));
     ("attendance_rate", 85.0%Q);
     ("assignment_completion_rate", 90.0%Q);
     ("total_interaction_value", total_interaction_value);
     ("avg_interaction_value", avg_interaction_value);
     ("interaction_count", interaction_count)].

(** The dictionary [features] built for each recommended course in
    [get_recommendations]. *)
Definition recommendation_features (profile : ProfileRow)
    (completed_enrollments : list EnrollmentRow) (course : CourseRow)
    : gmap string Q :=
  let completed_grades := omap en_grade completed_enrollments in
  let hist_mean_grade := mean_or_zero completed_grades in
  list_to_map
    [("hist_mean_grade", hist_mean_grade);
     ("hist_std_grade", 0.0%Q);
     ("hist_course_count", py_len completed_enrollments);
     ("hist_avg_attendance", 85.0%Q);
     ("hist_avg_completion", 90.0%Q);
     ("credits", inject_Z (co_credits course));
     ("topic_count", topic_count (co_topics course));
     ("difficulty_num", difficulty_num (co_difficulty course));
     ("high_school_gpa", pr_high_school_gpa profile);
     ("year", inject_Z (pr_year profile));
     ("age", age_or_default (pr_age profile));
     ("attendance_rate", 85.0%Q);
     ("assignment_completion_rate", 90.0%Q);
     ("total_interaction_value", 0.0%Q);
     ("avg_interaction_value", 0.0%Q);
     ("interaction_count", 0%Q)].

End Features.
Export Features.

(** ** The endpoints of [main.py]

    An endpoint either returns its response or raises.  Raising an
    [HTTPException] and raising any other Python exception are told apart,
    because the handlers [except Exception as e: raise HTTPException(500)]
    catch both. *)

Module Http.

Inductive Exc :=
  | HTTPException (status_code : Z)
  | PythonError.

Inductive Outcome (A : Type) :=
  | Returns (a : A)
  | Raises (e : Exc).
Arguments Returns {A} a.
Arguments Raises {A} e.

Definition outcome_bind {A B} (o : Outcome A) (k : A → Outcome B) : Outcome B :=
  match o with
  | Returns a => k a
  | Raises e => Raises e
  end.

(** [try: body except Exception as e: raise HTTPException(status_code=500,
    detail=str(e))]. *)
Definition except_500 {A} (body : Outcome A) : Outcome A :=
  match body with
  | Returns a => Returns a
  | Raises _ => Raises (HTTPException 500)
  end.

(** [.single().execute()] and any lookup that raises when nothing is
    found. *)
Definition or_raise {A} (o : option A) : Outcome A :=
  match o with
  | Some a => Returns a
  | None => Raises PythonError
  end.

(** Python's [round(x, 3)]. *)
Definition py_round3 (x : Q) : Q := (inject_Z (round_half_even (x * 1000)) / 1000)%Q.

Section Endpoints.

Variable np_sqrt : Q → Q.
Variable cosine_similarity : list Q → list Q → Q.
Variable set_iter : gset string → list string.

(** The endpoint [POST /predict-grade]; [grade_predictor] is [None] when
    the model failed to load. *)
Definition predict_grade (grade_predictor : option GradePredictor) (db : Tables)
    (request_student_id request_course_id user_id : string)
    : Outcome PredictGradeResponse :=
  match grade_predictor with
  | None => Raises (HTTPException 503)
  | Some gp =>
      except_500
        (if decide (request_student_id ≠ user_id) then Raises (HTTPException 403)
         else
           outcome_bind (or_raise (profiles db !! user_id)) (fun profile =>
           let enrollments := completed_enrollments_of db user_id in
           outcome_bind (or_raise (courses db !! request_course_id)) (fun course =>
           let interactions := interactions_of db user_id in
           let features := build_features np_sqrt profile enrollments course interactions in
           Returns (predict_grade_response np_sqrt gp features))))
  end.

(** One entry of the response of [POST /recommendations]. *)
Record CourseRecommendation := {
  rec_course_id : string;
  rec_course_code : string;
  rec_course_title : string;
  rec_score : Q;
  rec_predicted_grade : option Q;
  rec_department : string;
  rec_credits : Z;
  rec_difficulty : string
}.

(** The substitute list built when [recommend] returned nothing:
    [[(cid, 0.5) for cid in popular_courses if cid not in
    enrolled_course_ids]]. *)
Definition fallback_recommendations (cr : CourseRecommender) (n : Z)
    (enrolled_course_ids : list string) : list (string * Q) :=
  (fun cid => (cid, 0.5%Q)) <$>
    filter (fun cid => cid ∉ enrolled_course_ids) (get_popular_courses cr n).

(** [if not recommendations: recommendations = ...]. *)
Definition or_fallback (cr : CourseRecommender) (n : Z)
    (enrolled_course_ids : list string) (recommendations : list (string * Q))
    : list (string * Q) :=
  match recommendations with
  | [] => fallback_recommendations cr n enrolled_course_ids
  | _ => recommendations
  end.

(** The grade predicted for a recommended course; any exception in the
    inner [try] leaves it [None]. *)
Definition predicted_grade_for (grade_predictor : option GradePredictor) (db : Tables)
    (user_id : string) (course : CourseRow) : option Q :=
  match grade_predictor with
  | None => None
  | Some gp =>
      match profiles db !! user_id with
      | None => None
      | Some profile =>
          let completed_enrollments := completed_enrollments_of db user_id in
          let features := recommendation_features profile completed_enrollments course in
          Some (py_round2 (predict np_sqrt gp features).1)
      end
  end.

(** The loop [for course_id, score in recommendations: if course_id in
    courses_dict: ...]. *)
Definition course_recommendations (grade_predictor : option GradePredictor) (db : Tables)
    (user_id : string) (recommendations : list (string * Q))
    : list CourseRecommendation :=
  omap (fun rec : string * Q =>
          course ← courses db !! rec.1;
          Some {| rec_course_id := rec.1;
                  rec_course_code := co_code course;
                  rec_course_title := co_title course;
                  rec_score := py_round3 rec.2;
                  rec_predicted_grade :=
                    predicted_grade_for grade_predictor db user_id course;
                  rec_department := co_department course;
                  rec_credits := co_credits course;
                  rec_difficulty := co_difficulty course |})
       recommendations.

(** The endpoint [POST /recommendations]; [recommender] is [None] when the
    artifact failed to load. *)
Definition get_recommendations (recommender : option CourseRecommender)
    (grade_predictor : option GradePredictor) (db : Tables)
    (request_student_id : string) (request_n : Z) (user_id : string)
    : Outcome (list CourseRecommendation) :=
  match recommender with
  | None => Raises (HTTPException 503)
  | Some cr =>
      except_500
        (if decide (request_student_id ≠ user_id) then Raises (HTTPException 403)
         else
           let enrolled_course_ids := en_course_id <$> enrollments_of db user_id in
           outcome_bind
             (or_raise (recommend_default cosine_similarity set_iter cr user_id
                          enrolled_course_ids request_n))
             (fun recommendations =>
                let recommendations :=
                  or_fallback cr request_n enrolled_course_ids recommendations in
                Returns (course_recommendations grade_predictor db user_id
                           recommendations)))
  end.

End Endpoints.

(** The response of [GET /stats]. *)
Record StatsResponse := {
  total_courses : Z;
  completed_courses : Z;
  in_progress_courses : Z;
  average_grade : Q;
  total_credits : Z;
  current_gpa : Q
}.

(** [table('courses').select('credits').in_('id', course_ids)]: the rows of
    the table whose id is listed, each once. *)
Definition select_credits_in (db : Tables) (course_ids : list string) : list Z :=
  (fun kv : string * CourseRow => co_credits kv.2) <$>
    filter (fun kv : string * CourseRow => kv.1 ∈ course_ids) (map_to_list (courses db)).

(** Python's [sum] over integers. *)
Definition py_sum_Z (l : list Z) : Z := fold_left Z.add l 0%Z.

(** The body of [get_stats]. *)
Definition get_stats (db : Tables) (user_id : string) : StatsResponse :=
  let enrollments := enrollments_of db user_id in
  match enrollments with
  | [] =>
      {| total_courses := 0; completed_courses := 0; in_progress_courses := 0;
         average_grade := 0.0%Q; total_credits := 0; current_gpa := 0.0%Q |}
  | _ =>
      let completed := filter (fun e => en_status e = "completed") enrollments in
      let in_progress := filter (fun e => en_status e = "in_progress") enrollments in
      let grades := omap en_grade completed in
      let avg_grade := mean_or_zero grades in
      let course_ids := en_course_id <$> enrollments in
      let total_credits := py_sum_Z (select_credits_in db course_ids) in
      {| total_courses := Z.of_nat (length enrollments);
         completed_courses := Z.of_nat (length completed);
         in_progress_courses := Z.of_nat (length in_progress);
         average_grade := py_round2 avg_grade;
         total_credits := total_credits;
         current_gpa := py_round2 avg_grade |}
  end.

End Http.
Export Http.

(** ** [RecommenderTrainer] of [train.py] *)

Module Train.

(** Insertion in a list of labels sorted in the order of Python strings. *)
Fixpoint insert_label (x : string) (l : list string) : list string :=
  match l with
  | [] => [x]
  | y :: l' => if String.leb x y then x :: y :: l' else y :: insert_label x l'
  end.

(** The labels of a pivot axis: the distinct values, sorted. *)
Definition axis_labels (l : list string) : list string :=
  foldr insert_label [] (remove_dups l).

(** [ratings_df]: the completed enrolments as (student, course, grade), a
    missing grade filled with 2.0. *)
Definition ratings_df (enrollments_df : list EnrollmentRow) : list (string * string * Q) :=
  (fun e => (en_student_id e, en_course_id e, default 2.0%Q (en_grade e))) <$>
    filter (fun e => en_status e = "completed") enrollments_df.

(** One cell of [pivot_table(..., values='grade', fill_value=0)]: the mean
    of the grades of the pair, 0 when the pair has none. *)
Definition pivot_cell (ratings : list (string * string * Q)) (student course : string) : Q :=
  let grades :=
    omap (fun r : string * string * Q =>
            if decide (r.1.1 = student ∧ r.1.2 = course) then Some r.2 else None)
         ratings in
  match grades with
  | [] => 0%Q
  | _ => (py_sum grades / py_len grades)%Q
  end.

(** [RecommenderTrainer.build_user_item_matrix]. *)
Definition build_user_item_matrix (enrollments_df : list EnrollmentRow) : DataFrame :=
  let ratings := ratings_df enrollments_df in
  let index := axis_labels ((fun r : string * string * Q => r.1.1) <$> ratings) in
  let columns := axis_labels ((fun r : string * string * Q => r.1.2) <$> ratings) in
  {| df_index := index;
     df_columns := columns;
     df_values := (fun s => (fun c => pivot_cell ratings s c) <$> columns) <$> index |}.

Section Trainer.

(** sklearn's [cosine_similarity] between two rows. *)
Variable cosine_similarity : list Q → list Q → Q.

(** [TfidfVectorizer(max_features=50).fit_transform]: the feature rows of
    the documents, or [None] when it raises (an empty vocabulary). *)
Variable fit_transform : list string → option (list (list Q)).

(** [RecommenderTrainer.compute_user_similarity]; sklearn refuses a matrix
    without rows. *)
Definition compute_user_similarity (user_item_matrix : DataFrame) : option DataFrame :=
  match df_values user_item_matrix with
  | [] => None
  | _ =>
      Some {| df_index := df_index user_item_matrix;
              df_columns := df_index user_item_matrix;
              df_values :=
                (fun r => cosine_similarity r <$> df_values user_item_matrix) <$>
                  df_values user_item_matrix |}
  end.

(** [RecommenderTrainer.extract_course_features], on the (id, topics)
    columns of [courses_df]; topics that are not a list give the empty
    document.  A frame built from no course has no [topics] column, and the
    lookup raises. *)
Definition extract_course_features (courses_df : list (string * option (list string)))
    : option CourseFeatures :=
  match courses_df with
  | [] => None
  | _ =>
      let topics_str :=
        (fun c : string * option (list string) =>
           match c.2 with Some x => String.concat " " x | None => "" end) <$> courses_df in
      topic_features ← fit_transform topics_str;
      Some {| course_ids := courses_df.*1; features := topic_features |}
  end.

(** The artifact [train] builds and [save_model] stores; [None] when the
    training stops, on its guard for an empty table or on an exception. *)
Definition train (enrollments_df : list EnrollmentRow)
    (courses_df : list (string * option (list string))) : option CourseRecommender :=
  match enrollments_df with
  | [] => None
  | _ =>
      let user_item_matrix := build_user_item_matrix enrollments_df in
      user_similarity ← compute_user_similarity user_item_matrix;
      course_features ← extract_course_features courses_df;
      Some {| user_item_matrix := user_item_matrix;
              user_similarity := user_similarity;
              course_features := course_features |}
  end.

End Trainer.

End Train.
Export Train.

(** ** More concrete data *)

Module Samples.

(** [ann] completed two courses, one without a recorded grade, and is in
    progress in a third; [dan] only has a course in progress. *)
Definition campus_db : Tables :=
  {| profiles :=
       {[ "ann" := {| pr_high_school_gpa := 3.6; pr_year := 2; pr_age := Some 0%Z |} ]};
     courses :=
       {[ "cs101" := {| co_code := "CS101"; co_title := "Programming";
                        co_department := "CS"; co_credits := 3;
                        co_difficulty := "Beginner";
                        co_topics := Some ["python"; "loops"] |};
          "ma201" := {| co_code := "MA201"; co_title := "Algebra";
                        co_department := "Math"; co_credits := 4;
                        co_difficulty := "Hard";
                        co_topics := None |} ]};
     enrollments :=
       [ {| en_student_id := "ann"; en_course_id := "cs101"; en_status := "completed";
            en_grade := Some 3.0%Q; en_attendance_rate := Some 90%Q;
            en_assignment_completion_rate := None |};
         {| en_student_id := "ann"; en_course_id := "cs101"; en_status := "completed";
            en_grade := None; en_attendance_rate := None;
            en_assignment_completion_rate := None |};
         {| en_student_id := "ann"; en_course_id := "ma201"; en_status := "in_progress";
            en_grade := None; en_attendance_rate := Some 80%Q;
            en_assignment_completion_rate := Some 70%Q |};
         {| en_student_id := "dan"; en_course_id := "ma201"; en_status := "in_progress";
            en_grade := None; en_attendance_rate := None;
            en_assignment_completion_rate := None |} ];
     interactions := [ {| ia_student_id := "ann"; ia_value := 12%Q |} ] |}.

(** A vectorizer with one constant feature per document. *)
Definition unit_rows (docs : list string) : option (list (list Q)) :=
  Some ((fun _ => [1%Q]) <$> docs).

(** A predictor whose trained names are the sixteen of the training
    script. *)
Definition trained_predictor : GradePredictor :=
  {| model := {| model_predict := fun xs => (py_sum xs / 100)%Q; n_estimators := Some 200%Z |};
     scaler_transform := fun xs => xs;
     feature_names := trained_features |}.

End Samples.
Export Samples.

(** A model that predicts 3.698 whatever the input. *)
Module PredictorSamples.

Definition near_A_predictor : GradePredictor :=
  {| model := {| model_predict := fun _ => 3.698%Q; n_estimators := None |};
     scaler_transform := fun xs => xs;
     feature_names := trained_features |}.

End PredictorSamples.
Export PredictorSamples.

(** ** [generate_sample_enrollments] of [generate_sample_data.py]

    The enrolment row the generator inserts for one course; the values
    drawn from [random] are inputs. *)

Module SampleData.

(** Python's [round(x, 1)]. *)
Definition py_round1 (x : Q) : Q := (inject_Z (round_half_even (x * 10)) / 10)%Q.

(** [difficulty_base_grades.get(difficulty, 2.8)]. *)
Definition base_grade (difficulty : string) : Q :=
  if decide (difficulty = "Beginner") then 3.2%Q
  else if decide (difficulty = "Intermediate") then 2.8%Q
  else if decide (difficulty = "Advanced") then 2.5%Q
  else 2.8%Q.

(** The values drawn for one enrolment: [uniform(-0.3, 0.3)],
    [uniform(70, 100)], [uniform(60, 100)], the two [uniform(85, 100)] of a
    good grade, the two [uniform(50, 75)] of a poor one, and the status
    chosen among ['completed', 'in_progress']. *)
Record Draws := {
  grade_noise : Q;
  attendance_any : Q;
  completion_any : Q;
  attendance_high : Q;
  completion_high : Q;
  attendance_low : Q;
  completion_low : Q;
  status_choice : string
}.

(** The draws lie in the ranges of their [uniform] calls. *)
Definition draws_in_range (d : Draws) : Prop :=
  ((-0.3 <= grade_noise d)%Q ∧ (grade_noise d <= 0.3)%Q) ∧
  ((70 <= attendance_any d)%Q ∧ (attendance_any d <= 100)%Q) ∧
  ((60 <= completion_any d)%Q ∧ (completion_any d <= 100)%Q) ∧
  ((85 <= attendance_high d)%Q ∧ (attendance_high d <= 100)%Q) ∧
  ((85 <= completion_high d)%Q ∧ (completion_high d <= 100)%Q) ∧
  ((50 <= attendance_low d)%Q ∧ (attendance_low d <= 75)%Q) ∧
  ((50 <= completion_low d)%Q ∧ (completion_low d <= 75)%Q) ∧
  (status_choice d = "completed" ∨ status_choice d = "in_progress").

(** The clamped grade of the [i]-th selected course. *)
Definition sample_grade (difficulty : string) (student_ability : Q) (d : Draws) : Q :=
  let grade := (base_grade difficulty + student_ability + grade_noise d)%Q in
  py_max 0.0 (py_min 4.0 grade).

(** [enrollment_data] for the [i]-th selected course. *)
Definition sample_enrollment (student_id course_id difficulty : string)
    (student_ability : Q) (i num_enrollments_per_student : Z) (d : Draws)
    : EnrollmentRow :=
  let grade := sample_grade difficulty student_ability d in
  let attendance_rate :=
    if Qlt_bool 3.0 grade then attendance_high d
    else if Qlt_bool grade 2.0 then attendance_low d
    else attendance_any d in
  let assignment_completion :=
    if Qlt_bool 3.0 grade then completion_high d
    else if Qlt_bool grade 2.0 then completion_low d
    else completion_any d in
  let status :=
    if (i <? num_enrollments_per_student - 2)%Z then "completed"
    else status_choice d in
  {| en_student_id := student_id;
     en_course_id := course_id;
     en_status := status;
     en_grade := if decide (status = "completed") then Some (py_round2 grade) else None;
     en_attendance_rate := Some (py_round1 attendance_rate);
     en_assignment_completion_rate := Some (py_round1 assignment_completion) |}.

End SampleData.
Export SampleData.

(** Draws in the middle of their ranges. *)
Module DrawSamples.

Definition demo_draws : Draws :=
  {| grade_noise := 0.1; attendance_any := 80; completion_any := 75;
     attendance_high := 92; completion_high := 95;
     attendance_low := 60; completion_low := 55;
     status_choice := "in_progress" |}.

End DrawSamples.
Export DrawSamples.

(** ** The score of one course, in any arithmetic

    The four lines of [get_collaborative_scores] that turn the collected
    ratings and similarities into a score, over a number type with its
    zero, operations and ordering test: [sum] folds from the left,
    starting from 0.  With the operations of [Q] this is [course_score];
    with those of binary64 it is the computation the interpreter runs. *)

Module ScoreArithmetic.

Definition course_score_gen {N : Type} (zero : N) (add mul div : N → N → N)
    (ltb : N → N → bool) (similar_user_ratings similarities : list N) : N :=
  match similar_user_ratings with
  | [] => zero
  | _ =>
      let weighted_sum :=
        fold_left add (zip_with mul similar_user_ratings similarities) zero in
      let similarity_sum := fold_left add similarities zero in
      if ltb zero similarity_sum then div weighted_sum similarity_sum else zero
  end.

Definition course_score_f64 : list float → list float → float :=
  course_score_gen 0%float PrimFloat.add PrimFloat.mul PrimFloat.div PrimFloat.ltb.

(** The binary64 numbers nearest to 0.65 and to 3.4999999999999996. *)
Definition f64_0_65 : float := 0x1.4cccccccccccdp-1%float.
Definition f64_below_3_5 : float := 0x1.bffffffffffffp+1%float.

(** Two students who disagree: the similarity of [a] and [b] is negative,
    as an artifact may hold it (cosine similarities of non-negative rating
    rows are not negative, the loaded matrix is not checked). *)
Definition rivals : CourseRecommender :=
  {| user_item_matrix :=
       {| df_index := ["a"; "b"];
          df_columns := ["c1"];
          df_values := [[0]; [3.5]]%Q |};
     user_similarity :=
       {| df_index := ["a"; "b"];
          df_columns := ["a"; "b"];
          df_values := [[1; -0.5]; [-0.5; 1]]%Q |};
     course_features := {| course_ids := ["c1"]; features := [[1]]%Q |} |}.

End ScoreArithmetic.
Export ScoreArithmetic.

(** * Properties *)

(** ** Ordering tests and rounding *)

Lemma Qlt_bool_true (x y : Q) : Qlt_bool x y = true ↔ (x < y)%Q.
Proof.
  unfold Qlt_bool. rewrite negb_true_iff, <- not_true_iff_false, Qle_bool_iff.
  split; [apply Qnot_le_lt | apply Qlt_not_le].
Qed.

Lemma Qlt_bool_false (x y : Q) : Qlt_bool x y = false ↔ (y <= x)%Q.
Proof.
  unfold Qlt_bool. rewrite negb_false_iff. apply Qle_bool_iff.
Qed.

Lemma Qle_bool_false (x y : Q) : Qle_bool x y = false ↔ (y < x)%Q.
Proof.
  rewrite <- not_true_iff_false, Qle_bool_iff.
  split; [apply Qnot_le_lt | apply Qlt_not_le].
Qed.

(** Case analysis on every ordering test of the goal. *)
Ltac q_tests :=
  repeat match goal with
  | |- context [Qlt_bool ?a ?b] =>
      let H := fresh "Hq" in
      destruct (Qlt_bool a b) eqn:H;
      [apply Qlt_bool_true in H | apply Qlt_bool_false in H]
  | |- context [Qle_bool ?a ?b] =>
      let H := fresh "Hq" in
      destruct (Qle_bool a b) eqn:H;
      [apply Qle_bool_iff in H | apply Qle_bool_false in H]
  end.

Lemma py_max_bounds (a b : Q) :
  (a <= py_max a b)%Q ∧ (b <= py_max a b)%Q ∧ (py_max a b = a ∨ py_max a b = b).
Proof. unfold py_max. q_tests; repeat split; auto; lra. Qed.

Lemma py_min_bounds (a b : Q) :
  (py_min a b <= a)%Q ∧ (py_min a b <= b)%Q ∧ (py_min a b = a ∨ py_min a b = b).
Proof. unfold py_min. q_tests; repeat split; auto; lra. Qed.

Lemma np_clip_bounds (x lo hi : Q) :
  (lo <= hi)%Q → (lo <= np_clip x lo hi)%Q ∧ (np_clip x lo hi <= hi)%Q.
Proof. intros Hle. unfold np_clip, py_min, py_max. q_tests; split; lra. Qed.

Lemma round_half_even_floor (x : Q) :
  (Qfloor x ≤ round_half_even x)%Z ∧ (round_half_even x ≤ Qfloor x + 1)%Z.
Proof.
  unfold round_half_even. q_tests; try destruct (Z.even _); lia.
Qed.

Lemma round_half_even_mono (x y : Q) :
  (x <= y)%Q → (round_half_even x ≤ round_half_even y)%Z.
Proof.
  intros Hxy.
  destruct (Z.eq_dec (Qfloor x) (Qfloor y)) as [Heq | Hne].
  - unfold round_half_even. rewrite Heq.
    q_tests; try destruct (Z.even _); try lia; lra.
  - pose proof (Qfloor_resp_le _ _ Hxy).
    pose proof (round_half_even_floor x). pose proof (round_half_even_floor y). lia.
Qed.

Lemma py_round2_mono (x y : Q) : (x <= y)%Q → (py_round2 x <= py_round2 y)%Q.
Proof.
  intros Hxy. unfold py_round2.
  assert (Hz : (round_half_even (x * 100) ≤ round_half_even (y * 100))%Z)
    by (apply round_half_even_mono; lra).
  rewrite Zle_Qle in Hz. unfold Qdiv.
  apply Qmult_le_compat_r; [exact Hz | discriminate].
Qed.

Lemma py_round2_unit_range (x : Q) :
  (0 <= x)%Q → (x <= 4)%Q → (0 <= py_round2 x)%Q ∧ (py_round2 x <= 4)%Q.
Proof.
  intros H0 H4. split.
  - apply (Qle_trans _ (py_round2 0)); [discriminate | by apply py_round2_mono].
  - apply (Qle_trans _ (py_round2 4)); [by apply py_round2_mono | discriminate].
Qed.

(** ** The grade predictor *)

Lemma append_loop {A B} (f : A → B) (l : list A) (acc : list B) :
  fold_left (fun acc x => (acc ++ [f x])%list) l acc = (acc ++ (f <$> l))%list.
Proof.
  revert acc. induction l as [| x l IH]; intros acc; simpl.
  - by rewrite app_nil_r.
  - rewrite IH, <- app_assoc. done.
Qed.

Lemma feature_values_map (gp : GradePredictor) (features : gmap string Q) :
  feature_values gp features =
  (fun feat_name => default 0%Q (features !! feat_name)) <$> feature_names gp.
Proof. unfold feature_values. by rewrite append_loop. Qed.

Lemma approx_sqrt_nonneg (x : Q) : (0 <= approx_sqrt x)%Q.
Proof.
  unfold approx_sqrt, Qle. simpl. rewrite Z.mul_1_r. apply Z.sqrt_nonneg.
Qed.

Section GradeProperties.

Variable np_sqrt : Q → Q.
Hypothesis np_sqrt_nonneg : ∀ x, (0 <= np_sqrt x)%Q.

Lemma std_dev_nonneg (m : Model) (xs : list Q) : (0 <= std_dev np_sqrt m xs)%Q.
Proof using np_sqrt_nonneg.
  unfold std_dev, np_std.
  destruct (n_estimators m); [| discriminate].
  destruct (_ <? _)%nat; [apply np_sqrt_nonneg | discriminate].
Qed.

Lemma predict_interval_nonneg (gp : GradePredictor) (features : gmap string Q) :
  (0 <= (predict np_sqrt gp features).2)%Q.
Proof using np_sqrt_nonneg.
  unfold predict. simpl.
  pose proof (std_dev_nonneg (model gp)
    (scaler_transform gp (feature_values gp features))) as Hs.
  lra.
Qed.

Lemma predict_point_clipped (gp : GradePredictor) (features : gmap string Q) :
  (0 <= (predict np_sqrt gp features).1)%Q ∧ ((predict np_sqrt gp features).1 <= 4)%Q.
Proof. unfold predict. simpl. apply np_clip_bounds. discriminate. Qed.

(** C1.  Whatever the feature dictionary, [GradePredictor.predict] returns
    the raw model output clamped to [0, 4]; the bounds the endpoint builds
    from it enclose the prediction and lie in [0, 4], before rounding and
    in the rounded fields of the response. *)
Theorem predict_within_grade_range (gp : GradePredictor) (features : gmap string Q) :
  let pred := (predict np_sqrt gp features).1 in
  let ci := (predict np_sqrt gp features).2 in
  let r := predict_grade_response np_sqrt gp features in
  pred = np_clip (model_predict (model gp)
                    (scaler_transform gp (feature_values gp features))) 0 4 ∧
  ((0 <= pred)%Q ∧ (pred <= 4)%Q) ∧
  ((lower_bound pred ci <= pred)%Q ∧ (pred <= upper_bound pred ci)%Q) ∧
  ((0 <= lower_bound pred ci)%Q ∧ (lower_bound pred ci <= 4)%Q) ∧
  ((0 <= upper_bound pred ci)%Q ∧ (upper_bound pred ci <= 4)%Q) ∧
  ((grade_range_lower r <= predicted_grade r)%Q ∧
   (predicted_grade r <= grade_range_upper r)%Q) ∧
  ((0 <= grade_range_lower r)%Q ∧ (grade_range_lower r <= 4)%Q) ∧
  ((0 <= grade_range_upper r)%Q ∧ (grade_range_upper r <= 4)%Q).
Proof using np_sqrt_nonneg.
  intros pred ci r.
  pose proof (predict_point_clipped gp features) as [Hp0 Hp4].
  pose proof (predict_interval_nonneg gp features) as Hci.
  fold pred in Hp0, Hp4. fold ci in Hci.
  assert (Hl : (lower_bound pred ci <= pred)%Q ∧ (0 <= lower_bound pred ci)%Q).
  { unfold lower_bound, py_max. q_tests; split; lra. }
  assert (Hu : (pred <= upper_bound pred ci)%Q ∧ (upper_bound pred ci <= 4)%Q).
  { unfold upper_bound, py_min. q_tests; split; lra. }
  destruct Hl as [Hl1 Hl2], Hu as [Hu1 Hu2].
  assert (Hr : r = {| predicted_grade := py_round2 pred;
                      confidence_interval := py_round2 ci;
                      grade_range_lower := py_round2 (lower_bound pred ci);
                      grade_range_upper := py_round2 (upper_bound pred ci);
                      letter_grade := grade_to_letter pred |}).
  { subst r pred ci. unfold predict_grade_response.
    by destruct (predict np_sqrt gp features). }
  rewrite Hr. simpl.
  repeat split; try done; try lra;
    try (by apply py_round2_mono);
    try (apply py_round2_unit_range; lra).
Qed.

(** C9.  The feature vector has one entry per trained feature name, in
    the order of that list; the entry is the dictionary's value when the
    name is present and 0 when it is absent.  The call always returns,
    and two dictionaries with the same values at the trained names give
    the same result. *)
Theorem predict_reads_trained_features (gp : GradePredictor) :
  (∀ features : gmap string Q,
     length (feature_values gp features) = length (feature_names gp) ∧
     ∀ (i : nat) (feat_name : string),
       feature_names gp !! i = Some feat_name →
       feature_values gp features !! i =
         Some (match features !! feat_name with Some v => v | None => 0%Q end)) ∧
  (∀ features : gmap string Q,
     (predict np_sqrt gp features).1 =
       np_clip (model_predict (model gp)
                  (scaler_transform gp (feature_values gp features))) 0 4) ∧
  (∀ features features' : gmap string Q,
     (∀ feat_name, feat_name ∈ feature_names gp →
        default 0%Q (features !! feat_name) = default 0%Q (features' !! feat_name)) →
     predict np_sqrt gp features = predict np_sqrt gp features') ∧
  feature_values gp ∅ = replicate (length (feature_names gp)) 0%Q.
Proof.
  split; [intros fs; split | split; [done | split]].
  - rewrite feature_values_map. by rewrite length_fmap.
  - intros i feat_name Hi. rewrite feature_values_map, list_lookup_fmap, Hi.
    simpl. by destruct (fs !! feat_name).
  - intros fs fs' Hagree.
    assert (Hv : feature_values gp fs = feature_values gp fs').
    { rewrite !feature_values_map. apply list_fmap_ext.
      intros i x Hx. apply Hagree. by eapply list_elem_of_lookup_2. }
    unfold predict. by rewrite Hv.
  - rewrite feature_values_map.
    induction (feature_names gp) as [| x l IH]; [done |].
    rewrite fmap_cons, IH, lookup_empty. done.
Qed.

End GradeProperties.

(** C1 at the demonstration predictor. *)
Lemma predict_within_grade_range_witness :
  (∀ x, (0 <= approx_sqrt x)%Q) ∧
  ((0 <= (predict approx_sqrt demo_predictor demo_features).1)%Q ∧
   ((predict approx_sqrt demo_predictor demo_features).1 <= 4)%Q).
Proof.
  split; [exact approx_sqrt_nonneg |].
  exact (proj1 (proj2 (predict_within_grade_range approx_sqrt approx_sqrt_nonneg
                         demo_predictor demo_features))).
Defined.

(** ** The letter-grade table *)

(** C2, as the code has it.  [grade_to_letter] is a total function whose
    value is fixed by the band of its argument: each breakpoint is an
    inclusive lower bound and the first band that matches, from the top,
    wins.  It maps 3.65 to A-, 3.7 to A and 2.0 to C+. *)
Theorem grade_to_letter_table :
  (∀ g : Q,
     (grade_to_letter g = "A" ↔ (3.7 <= g)%Q) ∧
     (grade_to_letter g = "A-" ↔ (3.3 <= g)%Q ∧ (g < 3.7)%Q) ∧
     (grade_to_letter g = "B+" ↔ (3.0 <= g)%Q ∧ (g < 3.3)%Q) ∧
     (grade_to_letter g = "B" ↔ (2.7 <= g)%Q ∧ (g < 3.0)%Q) ∧
     (grade_to_letter g = "B-" ↔ (2.3 <= g)%Q ∧ (g < 2.7)%Q) ∧
     (grade_to_letter g = "C+" ↔ (2.0 <= g)%Q ∧ (g < 2.3)%Q) ∧
     (grade_to_letter g = "C" ↔ (1.7 <= g)%Q ∧ (g < 2.0)%Q) ∧
     (grade_to_letter g = "C-" ↔ (1.3 <= g)%Q ∧ (g < 1.7)%Q) ∧
     (grade_to_letter g = "D" ↔ (1.0 <= g)%Q ∧ (g < 1.3)%Q) ∧
     (grade_to_letter g = "F" ↔ (g < 1.0)%Q)) ∧
  grade_to_letter 3.65 = "A-" ∧
  grade_to_letter 3.7 = "A" ∧
  grade_to_letter 2.0 = "C+".
Proof.
  split; [| done].
  intros g. unfold grade_to_letter.
  q_tests; repeat split; intros; try done; try lra;
    try (exfalso; match goal with H : _ ∧ _ |- _ => destruct H end; lra).
Qed.

(** C2, the example of the specification: 3.65 lies in the band of A-, not
    in that of B+. *)
Lemma grade_to_letter_3_65_not_B_plus : grade_to_letter 3.65 ≠ "B+".
Proof. discriminate. Qed.

(** ** Frames and sorting *)

Lemma get_loc_Some (l : string) (ls : list string) :
  l ∈ ls → ∃ i, get_loc l ls = Some i ∧ ls !! i = Some l.
Proof.
  induction ls as [| x ls IH]; intros Hin; [by apply elem_of_nil in Hin |].
  simpl. destruct (decide (x = l)) as [-> | Hne]; [by exists 0%nat |].
  apply elem_of_cons in Hin as [-> | Hin]; [done |].
  destruct (IH Hin) as (i & -> & Hi). by exists (S i).
Qed.

Lemma get_loc_lookup (l : string) (ls : list string) (i : nat) :
  get_loc l ls = Some i → ls !! i = Some l.
Proof.
  revert i. induction ls as [| x ls IH]; intros i; simpl; [done |].
  destruct (decide (x = l)) as [-> | Hne]; [by intros [= <-] |].
  destruct (get_loc l ls) as [j |]; simpl; [| done].
  intros [= <-]. by apply IH.
Qed.

Lemma df_loc_is_Some (df : DataFrame) (r c : string) :
  wf_frame df → r ∈ df_index df → c ∈ df_columns df → is_Some (df_loc df r c).
Proof.
  intros (_ & _ & Hrows & Hwidth) Hr Hc. unfold df_loc.
  destruct (get_loc_Some _ _ Hr) as (i & -> & Hi).
  destruct (get_loc_Some _ _ Hc) as (j & -> & Hj). simpl.
  apply lookup_lt_Some in Hi, Hj. rewrite <- Hrows in Hi.
  destruct (lookup_lt_is_Some_2 _ _ Hi) as [row Hrow]. rewrite Hrow. simpl.
  apply lookup_lt_is_Some_2.
  rewrite Forall_forall in Hwidth. rewrite (Hwidth row); [done |].
  by eapply list_elem_of_lookup_2.
Qed.

Lemma df_getitem_Some (df : DataFrame) (c : string) :
  wf_frame df → c ∈ df_columns df →
  ∃ s : Series, df_getitem df c = Some s ∧ s.*1 = df_index df.
Proof.
  intros (_ & _ & Hrows & Hwidth) Hc. unfold df_getitem.
  destruct (get_loc_Some _ _ Hc) as (j & -> & Hj). simpl.
  apply lookup_lt_Some in Hj.
  match goal with |- ∃ s, mapM ?f ?l = _ ∧ _ =>
    assert (Hsome : is_Some (mapM f l)); [| destruct Hsome as [s Hs]; exists s] end.
  - apply mapM_is_Some, Forall_forall. intros [lbl row] Hin. simpl.
    apply fmap_is_Some, lookup_lt_is_Some_2.
    apply elem_of_zip_r in Hin. rewrite Forall_forall in Hwidth.
    by rewrite (Hwidth row).
  - split; [done |]. apply mapM_Some_1 in Hs.
    transitivity (zip (df_index df) (df_values df)).*1.
    + symmetry. clear -Hs. induction Hs as [| [lbl row] [lbl' v] l k Hxy _ IH]; [done |].
      rewrite !fmap_cons, IH. simpl in Hxy.
      destruct (row !! j); simpl in Hxy; [| done]. by injection Hxy as -> _.
    + apply fst_zip. lia.
Qed.

Lemma insert_desc_perm {A} (x : A * Q) (l : list (A * Q)) : insert_desc x l ≡ₚ x :: l.
Proof.
  induction l as [| y l IH]; simpl; [done |].
  destruct (Qle_bool y.2 x.2); [done |]. rewrite IH. apply perm_swap.
Qed.

Lemma sort_desc_perm {A} (l : list (A * Q)) : sort_desc l ≡ₚ l.
Proof.
  induction l as [| x l IH]; simpl; [done |].
  unfold sort_desc in *. simpl. by rewrite insert_desc_perm, IH.
Qed.

Lemma sort_desc_length {A} (l : list (A * Q)) : length (sort_desc l) = length l.
Proof. by rewrite sort_desc_perm. Qed.

Lemma insert_desc_sorted {A} (x : A * Q) (l : list (A * Q)) :
  StronglySorted (fun a b => (b.2 <= a.2)%Q) l →
  StronglySorted (fun a b => (b.2 <= a.2)%Q) (insert_desc x l).
Proof.
  induction 1 as [| y l Hs IH Hall]; simpl; [repeat constructor |].
  destruct (Qle_bool y.2 x.2) eqn:Hle.
  - apply Qle_bool_iff in Hle. constructor; [by constructor |].
    constructor; [done |]. eapply Forall_impl; [exact Hall |].
    intros z Hz. simpl in Hz. lra.
  - apply Qle_bool_false in Hle. constructor; [done |].
    rewrite insert_desc_perm. constructor; [lra | done].
Qed.

Lemma sort_desc_sorted {A} (l : list (A * Q)) :
  StronglySorted (fun a b => (b.2 <= a.2)%Q) (sort_desc l).
Proof.
  induction l as [| x l IH]; [constructor |].
  unfold sort_desc in *. simpl. by apply insert_desc_sorted.
Qed.

Lemma insert_desc_stable {A} (q : Q) (x : A * Q) (l : list (A * Q)) :
  filter (fun p : A * Q => Qeq_bool p.2 q = true) (insert_desc x l) =
  filter (fun p : A * Q => Qeq_bool p.2 q = true) (x :: l).
Proof.
  induction l as [| y l IH]; simpl; [done |].
  destruct (Qle_bool y.2 x.2) eqn:Hle; [done |]. apply Qle_bool_false in Hle.
  rewrite (filter_cons _ y), IH, !(filter_cons _ x), (filter_cons _ y).
  destruct (decide (Qeq_bool y.2 q = true)) as [Hy | Hy],
           (decide (Qeq_bool x.2 q = true)) as [Hx | Hx]; try done.
  exfalso. apply Qeq_bool_iff in Hx, Hy. lra.
Qed.

(** The sort is stable: the entries of any one value come out in the order
    they went in. *)
Lemma sort_desc_stable {A} (q : Q) (l : list (A * Q)) :
  filter (fun p : A * Q => Qeq_bool p.2 q = true) (sort_desc l) =
  filter (fun p : A * Q => Qeq_bool p.2 q = true) l.
Proof.
  induction l as [| x l IH]; [done |].
  unfold sort_desc in *. simpl. by rewrite insert_desc_stable, !filter_cons, IH.
Qed.

Lemma StronglySorted_take_prefix {A} (R : A → A → Prop) (n : nat) (l : list A) :
  StronglySorted R l → StronglySorted R (take n l).
Proof.
  intros Hs. revert n. induction Hs as [| x l Hs IH Hall]; intros [| n]; simpl;
    try constructor; [apply IH |].
  eapply Forall_forall. intros y Hy. rewrite Forall_forall in Hall.
  apply Hall. by apply (subseteq_take n l).
Qed.

(** ** The collaborative scorer *)

Lemma similar_users_Some (cr : CourseRecommender) (student_id : string) (k : Z) :
  aligned cr → student_id ∈ df_index (user_item_matrix cr) →
  ∃ users, similar_users cr student_id k = Some users ∧
           ∀ u, u ∈ users → u ∈ df_index (user_item_matrix cr).
Proof.
  intros (_ & Hsim & Hidx & Hcols) Hs. unfold similar_users.
  rewrite <- Hcols in Hs.
  destruct (df_getitem_Some _ _ Hsim Hs) as (col & -> & Hlabels). simpl.
  eexists; split; [done |]. intros u Hu.
  rewrite <- Hidx, <- Hlabels.
  apply (subseteq_drop 1) in Hu. unfold nlargest in Hu.
  apply list_elem_of_fmap in Hu as (p & -> & Hp).
  apply (subseteq_take (Z.to_nat (k + 1))) in Hp. rewrite sort_desc_perm in Hp.
  apply list_elem_of_fmap. by exists p.
Qed.

Lemma contributing_cons (cr : CourseRecommender) (course_id u : string) (us : list string) :
  contributing cr course_id (u :: us) =
  if decide (rated cr u course_id) then u :: contributing cr course_id us
  else contributing cr course_id us.
Proof. unfold contributing. by rewrite filter_cons. Qed.

Lemma collect_ratings_contributing (cr : CourseRecommender) (student_id course_id : string)
    (users : list string) :
  aligned cr →
  student_id ∈ df_index (user_item_matrix cr) →
  course_id ∈ df_columns (user_item_matrix cr) →
  (∀ u, u ∈ users → u ∈ df_index (user_item_matrix cr)) →
  collect_ratings cr student_id course_id users =
  Some ((fun u => rating_of cr u course_id) <$> contributing cr course_id users,
        similarity_of cr student_id <$> contributing cr course_id users).
Proof.
  intros (Huim & Hsim & Hidx & Hcols) Hs Hc. induction users as [| u us IH]; intros Hus.
  - done.
  - assert (Hu : u ∈ df_index (user_item_matrix cr)) by (apply Hus; left).
    rewrite contributing_cons. simpl.
    destruct (df_loc_is_Some _ u course_id Huim Hu Hc) as [r Hr].
    assert (Hrate : rating_of cr u course_id = r) by (unfold rating_of; by rewrite Hr).
    rewrite Hr. simpl. rewrite IH by (intros v Hv; apply Hus; by right).
    destruct (decide (rated cr u course_id)) as [Hrated | Hnot];
      unfold rated in *; rewrite Hrate in *.
    + rewrite Hrated.
      destruct (df_loc_is_Some (user_similarity cr) student_id u Hsim) as [w Hw];
        [by rewrite Hidx | by rewrite Hcols |].
      assert (Hweight : similarity_of cr student_id u = w)
        by (unfold similarity_of; by rewrite Hw).
      rewrite Hw, !fmap_cons, Hrate, Hweight. done.
    + by apply not_true_is_false in Hnot as ->.
Qed.

Lemma score_columns_lookup (cr : CourseRecommender) (student_id : string)
    (users : list string) (ratings similarities : string → list Q)
    (columns : list string) (scores : gmap string Q) :
  (∀ c, c ∈ columns → is_Some (df_loc (user_item_matrix cr) student_id c)) →
  (∀ c, c ∈ columns →
     collect_ratings cr student_id c users = Some (ratings c, similarities c)) →
  ∃ m, score_columns cr student_id users columns scores = Some m ∧
       ∀ c, m !! c =
            if decide (c ∈ columns ∧ ¬ rated cr student_id c)
            then Some (course_score (ratings c) (similarities c))
            else scores !! c.
Proof.
  revert scores. induction columns as [| c0 rest IH]; intros scores Hown Hcollect.
  - exists scores. split; [done |]. intros c.
    destruct (decide _) as [[Hin _] | _]; [by apply elem_of_nil in Hin | done].
  - simpl. destruct (Hown c0) as [own Hc0]; [left |].
    assert (Hrate : rating_of cr student_id c0 = own)
      by (unfold rating_of; by rewrite Hc0).
    rewrite Hc0. simpl.
    assert (Hown' : ∀ c, c ∈ rest →
              is_Some (df_loc (user_item_matrix cr) student_id c))
      by (intros c Hc; apply Hown; by right).
    assert (Hcollect' : ∀ c, c ∈ rest →
              collect_ratings cr student_id c users = Some (ratings c, similarities c))
      by (intros c Hc; apply Hcollect; by right).
    assert (Hrated0 : rated cr student_id c0 ↔ Qlt_bool 0 own = true)
      by (unfold rated; by rewrite Hrate).
    destruct (Qlt_bool 0 own) eqn:Hq.
    + destruct (IH scores Hown' Hcollect') as (m & -> & Hm).
      exists m. split; [done |]. intros c. rewrite Hm.
      destruct (decide (c ∈ rest ∧ ¬ rated cr student_id c)) as [[Hin Hnr] | Hn1],
               (decide (c ∈ c0 :: rest ∧ ¬ rated cr student_id c)) as [[Hin' Hnr'] | Hn2];
        try done.
      * exfalso. apply Hn2. split; [by right | done].
      * exfalso. apply elem_of_cons in Hin' as [-> | Hin'].
        -- apply Hnr'. by apply Hrated0.
        -- by apply Hn1.
    + rewrite (Hcollect c0) by left. simpl.
      destruct (IH (<[c0 := course_score (ratings c0) (similarities c0)]> scores)
                  Hown' Hcollect') as (m & -> & Hm).
      exists m. split; [done |]. intros c. rewrite Hm.
      destruct (decide (c ∈ rest ∧ ¬ rated cr student_id c)) as [[Hin Hnr] | Hn1],
               (decide (c ∈ c0 :: rest ∧ ¬ rated cr student_id c)) as [[Hin' Hnr'] | Hn2];
        try done.
      * exfalso. apply Hn2. split; [by right | done].
      * apply elem_of_cons in Hin' as [-> | Hin'].
        -- by rewrite lookup_insert_eq.
        -- exfalso. by apply Hn1.
      * rewrite lookup_insert_ne; [done |]. intros ->. apply Hn2.
        split; [left |]. rewrite Hrated0. by intros [=].
Qed.

Lemma collaborative_scores_lookup (cr : CourseRecommender) (student_id : string) (k : Z) :
  aligned cr → student_id ∈ df_index (user_item_matrix cr) →
  ∃ users m,
    similar_users cr student_id k = Some users ∧
    get_collaborative_scores cr student_id k = Some m ∧
    ∀ c, m !! c =
         if decide (c ∈ df_columns (user_item_matrix cr) ∧ ¬ rated cr student_id c)
         then Some (course_score
                      ((fun u => rating_of cr u c) <$> contributing cr c users)
                      (similarity_of cr student_id <$> contributing cr c users))
         else None.
Proof.
  intros Hal Hs.
  destruct (similar_users_Some cr student_id k Hal Hs) as (users & Husers & Hsub).
  unfold get_collaborative_scores. rewrite decide_True by done. rewrite Husers. simpl.
  destruct (score_columns_lookup cr student_id users
              (fun c => (fun u => rating_of cr u c) <$> contributing cr c users)
              (fun c => similarity_of cr student_id <$> contributing cr c users)
              (df_columns (user_item_matrix cr)) ∅) as (m & Hm & Hlook).
  - intros c Hc. destruct Hal as (Huim & _). by apply df_loc_is_Some.
  - intros c Hc. by apply collect_ratings_contributing.
  - exists users, m. split; [done |]. split; [done |].
    intros c. rewrite Hlook. by rewrite lookup_empty.
Qed.

Lemma zip_with_fmap_diag {A} (f g : A → Q) (l : list A) :
  zip_with Qmult (f <$> l) (g <$> l) = (fun u => (f u * g u)%Q) <$> l.
Proof. induction l as [| x l IH]; [done |]. rewrite !fmap_cons. simpl. by rewrite IH. Qed.

Lemma course_score_contributing (cr : CourseRecommender) (student_id course_id : string)
    (nb : list string) :
  course_score ((fun u => rating_of cr u course_id) <$> nb)
               (similarity_of cr student_id <$> nb) =
  match nb with
  | [] => 0%Q
  | _ => if Qlt_bool 0 (similarity_sum cr student_id nb)
         then (weighted_sum cr student_id course_id nb /
               similarity_sum cr student_id nb)%Q
         else 0%Q
  end.
Proof.
  destruct nb as [| u nb]; [done |].
  unfold course_score, weighted_sum, similarity_sum.
  rewrite zip_with_fmap_diag. by rewrite !fmap_cons.
Qed.

Lemma course_score_is_gen (similar_user_ratings similarities : list Q) :
  course_score similar_user_ratings similarities =
  course_score_gen 0%Q Qplus Qmult Qdiv Qlt_bool similar_user_ratings similarities.
Proof. by destruct similar_user_ratings. Qed.

(** C4, as the code has it.  In an aligned artifact, a course the student
    has not rated gets a score: what the four scoring lines compute from
    the ratings and similarities of the neighbours who rated it.  The score
    is 0 when no selected neighbour has a positive rating for the course;
    otherwise it is the sum of rating times similarity over the sum of the
    similarities when that sum is positive, and 0 when that sum is zero or
    negative.  With exactly one such neighbour, of positive similarity [s]
    and rating [r], the score is the quotient [(0 + r * s) / (0 + s)] of
    the arithmetic at hand, and so it is in binary64, where it is rounded:
    for [r = 3.5] it is 3.5 when [s] is 1, and 3.4999999999999996 when [s]
    is 0.65. *)
Theorem collaborative_score_weighted_average (cr : CourseRecommender)
    (student_id course_id : string) (k : Z) :
  aligned cr →
  student_id ∈ df_index (user_item_matrix cr) →
  course_id ∈ df_columns (user_item_matrix cr) →
  ¬ rated cr student_id course_id →
  ∃ (neighbours : list string) (scores : gmap string Q) (v : Q),
    similar_users cr student_id k = Some neighbours ∧
    get_collaborative_scores cr student_id k = Some scores ∧
    scores !! course_id = Some v ∧
    let nb := contributing cr course_id neighbours in
    v = course_score_gen 0%Q Qplus Qmult Qdiv Qlt_bool
          ((fun u => rating_of cr u course_id) <$> nb)
          (similarity_of cr student_id <$> nb) ∧
    (nb = [] → v = 0%Q) ∧
    (nb ≠ [] → ¬ (0 < similarity_sum cr student_id nb)%Q → v = 0%Q) ∧
    (nb ≠ [] → (0 < similarity_sum cr student_id nb)%Q →
       v = (weighted_sum cr student_id course_id nb / similarity_sum cr student_id nb)%Q) ∧
    (∀ u, nb = [u] → (0 < similarity_of cr student_id u)%Q →
       v = ((0 + rating_of cr u course_id * similarity_of cr student_id u) /
            (0 + similarity_of cr student_id u))%Q) ∧
    (∀ r s : float, PrimFloat.ltb 0 (0 + s) = true →
       course_score_f64 [r] [s] = ((0 + r * s) / (0 + s))%float) ∧
    course_score_f64 [3.5%float] [1%float] = 3.5%float ∧
    course_score_f64 [3.5%float] [f64_0_65] = f64_below_3_5.
Proof.
  intros Hal Hs Hc Hnr.
  destruct (collaborative_scores_lookup cr student_id k Hal Hs)
    as (users & m & Husers & Hm & Hlook).
  exists users, m. eexists. split; [done |]. split; [done |].
  split; [rewrite Hlook; by rewrite decide_True by done |].
  set (nb := contributing cr course_id users). cbv zeta.
  split; [apply course_score_is_gen |].
  rewrite course_score_contributing.
  split_and!.
  - by intros ->.
  - intros Hne Hnpos. destruct nb; [done |].
    destruct (Qlt_bool 0 _) eqn:Hq; [| done]. by apply Qlt_bool_true in Hq.
  - intros Hne Hpos. destruct nb; [done |].
    by apply Qlt_bool_true in Hpos as ->.
  - intros u -> Hpos.
    unfold similarity_sum, weighted_sum, py_sum. cbn [fmap list_fmap fold_left].
    assert (Hq : Qlt_bool 0 (0 + similarity_of cr student_id u) = true)
      by (apply Qlt_bool_true; lra).
    by rewrite Hq.
  - intros r s Hpos. unfold course_score_f64, course_score_gen.
    cbn [zip_with fold_left]. by rewrite Hpos.
  - by vm_compute.
  - by vm_compute.
Qed.

Lemma campus_aligned : aligned campus.
Proof.
  unfold aligned, wf_frame. simpl.
  split_and!; try done; try (by apply (bool_decide_unpack _));
    repeat constructor.
Qed.

(** C4 on [campus]: [bob] is the only neighbour of [ann] who rated [ma201],
    with 3.5 and similarity 0.65, so the collaborative score of [ma201] for
    [ann] is the quotient (0 + 3.5 * 0.65) / (0 + 0.65). *)
Lemma collaborative_score_weighted_average_witness :
  aligned campus ∧
  "ann" ∈ df_index (user_item_matrix campus) ∧
  "ma201" ∈ df_columns (user_item_matrix campus) ∧
  ¬ rated campus "ann" "ma201" ∧
  ∃ (scores : gmap string Q) (v : Q),
    get_collaborative_scores campus "ann" 10 = Some scores ∧
    scores !! "ma201" = Some v ∧
    v = ((0 + 3.5 * 0.65) / (0 + 0.65))%Q.
Proof.
  assert (Hs : "ann" ∈ df_index (user_item_matrix campus))
    by (by apply (bool_decide_unpack _)).
  assert (Hc : "ma201" ∈ df_columns (user_item_matrix campus))
    by (by apply (bool_decide_unpack _)).
  assert (Hnr : ¬ rated campus "ann" "ma201") by (by vm_compute).
  split_and!; try done; [exact campus_aligned |].
  destruct (collaborative_score_weighted_average campus "ann" "ma201" 10
              campus_aligned Hs Hc Hnr)
    as (neighbours & scores & v & Hn & Hscores & Hv & _ & _ & _ & _ & Hone & _).
  exists scores, v. split_and!; try done.
  assert (Heq : neighbours = ["bob"; "cat"]) by (vm_compute in Hn; congruence).
  subst neighbours. apply (Hone "bob"); by vm_compute.
Defined.

(** C4 as the specification states it fails in two ways.  On [campus],
    [bob] is the one neighbour of [ann] who rated [ma201]: his rating is
    3.5 and his similarity 0.65.  In binary64 the score (3.5 * 0.65) / 0.65
    is 3.4999999999999996, the number just below 3.5.  On [rivals] the one
    neighbour who rated [c1] has similarity -0.5: the sum of similarities
    is not 0 and the quotient is 3.5, yet the score is 0. *)
Lemma weighted_average_rounded_or_dropped :
  (similar_users campus "ann" 10 = Some ["bob"; "cat"] ∧
   collect_ratings campus "ann" "ma201" ["bob"; "cat"] = Some ([3.5%Q], [0.65%Q]) ∧
   PrimFloat.ltb 0 f64_0_65 = true ∧
   course_score_f64 [3.5%float] [f64_0_65] = f64_below_3_5 ∧
   PrimFloat.eqb (course_score_f64 [3.5%float] [f64_0_65]) 3.5%float = false) ∧
  (aligned rivals ∧
   ¬ rated rivals "a" "c1" ∧
   similar_users rivals "a" 10 = Some ["b"] ∧
   contributing rivals "c1" ["b"] = ["b"] ∧
   ¬ (similarity_sum rivals "a" ["b"] == 0)%Q ∧
   (weighted_sum rivals "a" "c1" ["b"] / similarity_sum rivals "a" ["b"] == 3.5)%Q ∧
   (get_collaborative_scores rivals "a" 10 ≫= (.!! "c1")) = Some 0%Q).
Proof.
  split.
  - split_and!; by vm_compute.
  - split_and!; try (by vm_compute).
    unfold aligned, wf_frame. simpl.
    split_and!; try done; try (by apply (bool_decide_unpack _));
      repeat constructor.
Qed.

(** C3, as the code has it.  In an aligned artifact, a student whose row is
    present and all zero gets a collaborative score for every column of the
    user-item matrix: the mapping is empty only when the matrix has no
    column. *)
Theorem zero_row_scores_every_course (cr : CourseRecommender) (student_id : string) (k : Z) :
  aligned cr →
  student_id ∈ df_index (user_item_matrix cr) →
  all_zero_row cr student_id →
  ∃ scores : gmap string Q,
    get_collaborative_scores cr student_id k = Some scores ∧
    (∀ c, is_Some (scores !! c) ↔ c ∈ df_columns (user_item_matrix cr)) ∧
    (scores = ∅ ↔ df_columns (user_item_matrix cr) = []).
Proof.
  intros Hal Hs Hzero.
  destruct (collaborative_scores_lookup cr student_id k Hal Hs)
    as (users & m & _ & Hm & Hlook).
  assert (Hnr : ∀ c, c ∈ df_columns (user_item_matrix cr) → ¬ rated cr student_id c).
  { intros c Hc Hr. unfold rated in Hr. apply Qlt_bool_true in Hr.
    specialize (Hzero c Hc). lra. }
  assert (Hkeys : ∀ c, is_Some (m !! c) ↔ c ∈ df_columns (user_item_matrix cr)).
  { intros c. rewrite Hlook. destruct (decide _) as [[Hc _] | Hn].
    - split; [done | by eexists].
    - split; [by intros [? ?] |]. intros Hc. exfalso. apply Hn. split; [done | by apply Hnr]. }
  exists m. split; [done |]. split; [done |]. split.
  - intros ->. destruct (df_columns (user_item_matrix cr)) as [| c cols]; [done |].
    exfalso. assert (Hc : is_Some ((∅ : gmap string Q) !! c)) by (apply Hkeys; left).
    rewrite lookup_empty in Hc. by destruct Hc.
  - intros Hcols. apply map_empty. intros c. apply eq_None_not_Some.
    rewrite Hkeys, Hcols. apply not_elem_of_nil.
Qed.

Lemma campus_cat_zero_row : all_zero_row campus "cat".
Proof.
  intros c Hc. simpl in Hc.
  repeat (apply elem_of_cons in Hc as [-> | Hc]; [by vm_compute |]).
  by apply elem_of_nil in Hc.
Qed.

(** C3 on [campus]: [cat] has an all-zero row and every course is scored. *)
Lemma zero_row_scores_every_course_witness :
  aligned campus ∧ "cat" ∈ df_index (user_item_matrix campus) ∧
  all_zero_row campus "cat" ∧
  ∃ scores : gmap string Q,
    get_collaborative_scores campus "cat" 10 = Some scores ∧ is_Some (scores !! "ph301").
Proof.
  assert (Hs : "cat" ∈ df_index (user_item_matrix campus))
    by (by apply (bool_decide_unpack _)).
  split_and!; try done; [exact campus_aligned | exact campus_cat_zero_row |].
  destruct (zero_row_scores_every_course campus "cat" 10
              campus_aligned Hs campus_cat_zero_row) as (scores & Hscores & Hkeys & _).
  exists scores. split; [done |]. apply Hkeys.
  by apply (bool_decide_unpack _).
Defined.

(** C3 as the specification states it fails on [campus]: the row of [cat]
    is present and all zero, and the scorer returns three entries. *)
Lemma zero_row_scores_not_empty :
  "cat" ∈ df_index (user_item_matrix campus) ∧
  all_zero_row campus "cat" ∧
  (map_to_list <$> get_collaborative_scores campus "cat" 10) =
    Some [("cs101", 0%Q); ("ma201", 0%Q); ("ph301", 0%Q)] ∧
  get_collaborative_scores campus "cat" 10 ≠ Some ∅.
Proof.
  split; [by apply (bool_decide_unpack _) |].
  split; [exact campus_cat_zero_row |].
  assert (Hval : (map_to_list <$> get_collaborative_scores campus "cat" 10) =
                 Some [("cs101", 0%Q); ("ma201", 0%Q); ("ph301", 0%Q)])
    by (by vm_compute).
  split; [done |]. intros Hempty. rewrite Hempty in Hval. by vm_compute in Hval.
Qed.

Lemma get_loc_NoDup (l : string) (ls : list string) (i : nat) :
  NoDup ls → ls !! i = Some l → get_loc l ls = Some i.
Proof.
  intros Hnd. revert i. induction Hnd as [| x ls Hx Hnd IH]; intros i Hi; [done |].
  simpl. destruct i as [| i]; simpl in Hi.
  - injection Hi as ->. by rewrite decide_True.
  - rewrite decide_False; [by rewrite (IH i Hi) |].
    intros ->. apply Hx. by eapply list_elem_of_lookup_2.
Qed.

Lemma df_getitem_elem (df : DataFrame) (c u : string) (v : Q) (col : Series) :
  wf_frame df → df_getitem df c = Some col → (u, v) ∈ col → df_loc df u c = Some v.
Proof.
  intros (Hnd & _ & Hrows & _). unfold df_getitem, df_loc.
  destruct (get_loc c (df_columns df)) as [j |]; [| done]. simpl.
  intros Hcol%mapM_Some_1 [i Hi]%list_elem_of_lookup.
  destruct (Forall2_lookup_r _ _ _ _ _ Hcol Hi) as ([lbl row] & Hz & Hv).
  simpl in Hv. destruct (row !! j) as [w |] eqn:Hw; [| done].
  injection Hv as -> ->.
  apply lookup_zip_with_Some in Hz as (lbl' & row' & [= <- <-] & Hlbl & Hrow).
  rewrite (get_loc_NoDup _ _ _ Hnd Hlbl). simpl. by rewrite Hrow.
Qed.

(** X19.  Where the selection of neighbours is right: when the target's own
    similarity is strictly the largest of its column, the label dropped by
    [index[1:]] is the target, and the neighbours are at most [k] other
    students. *)
Lemma similar_users_excludes_strict_self (cr : CourseRecommender) (student_id : string)
    (k : Z) :
  aligned cr →
  student_id ∈ df_index (user_item_matrix cr) →
  (∀ u, u ∈ df_index (user_item_matrix cr) → u ≠ student_id →
     (similarity_of cr u student_id < similarity_of cr student_id student_id)%Q) →
  ∃ users, similar_users cr student_id k = Some users ∧
           (student_id ∉ users) ∧ (length users ≤ Z.to_nat k)%nat.
Proof.
  intros (_ & Hsim & Hidx & Hcols) Hs Hmax. unfold similar_users.
  assert (Hs' : student_id ∈ df_columns (user_similarity cr)) by (by rewrite Hcols).
  destruct (df_getitem_Some _ _ Hsim Hs') as (col & Hcol & Hlabels). rewrite Hcol. simpl.
  eexists. split; [done |]. unfold nlargest.
  pose proof (sort_desc_sorted col) as Hsorted.
  pose proof (sort_desc_perm col) as Hperm.
  set (sorted := sort_desc col) in *.
  assert (Hnd : NoDup sorted.*1) by (rewrite Hperm, Hlabels; by destruct Hsim).
  assert (Hself : ∃ w, (student_id, w) ∈ sorted).
  { rewrite <- Hidx, <- Hlabels in Hs.
    apply list_elem_of_fmap in Hs as ([u w] & -> & Hin). exists w. by rewrite Hperm. }
  assert (Hvalue : ∀ u w, (u, w) ∈ sorted →
            similarity_of cr u student_id = w ∧ u ∈ df_index (user_item_matrix cr)).
  { intros u w Hin. rewrite Hperm in Hin. split.
    - unfold similarity_of. by rewrite (df_getitem_elem _ _ _ _ _ Hsim Hcol Hin).
    - rewrite <- Hidx, <- Hlabels. apply list_elem_of_fmap. by exists (u, w). }
  clearbody sorted. clear Hperm.
  destruct sorted as [| [h wh] t];
    [destruct Hself as [w Hw]; by apply elem_of_nil in Hw |].
  destruct (Z.to_nat (k + 1)) as [| m] eqn:Hm;
    [split; [apply not_elem_of_nil | simpl; lia] |].
  apply StronglySorted_inv in Hsorted as [_ Hall].
  rewrite fmap_cons in Hnd. apply NoDup_cons in Hnd as [Hh Hnd].
  assert (Hhead : h = student_id).
  { destruct (decide (h = student_id)) as [| Hne]; [done |]. exfalso.
    destruct Hself as [w Hw]. apply elem_of_cons in Hw as [[= <- <-] | Hw]; [done |].
    rewrite Forall_forall in Hall. specialize (Hall _ Hw). simpl in Hall.
    destruct (Hvalue h wh) as [Hwh Hin]; [left |].
    destruct (Hvalue student_id w) as [Hws _]; [by right |].
    specialize (Hmax h Hin Hne). rewrite Hwh, Hws in Hmax. lra. }
  subst h. simpl. rewrite drop_0. split.
  - intros Hin. apply Hh. apply list_elem_of_fmap in Hin as (p & -> & Hp).
    apply list_elem_of_fmap. exists p. split; [done |]. by apply (subseteq_take m t).
  - rewrite length_fmap, length_take. lia.
Qed.

(** C5, the code at two inputs.  In [twins] both students have the same
    ratings and every similarity is 1: the neighbours selected for [b] are
    [b] alone, and [a] is dropped.  In [campus] the all-zero row of [cat]
    has similarity 0 with everyone, herself included, and [cat] is among
    her own neighbours. *)
Theorem similar_users_keeps_self :
  similar_users twins "b" 10 = Some ["b"] ∧
  similar_users campus "cat" 10 = Some ["bob"; "cat"].
Proof. split; by vm_compute. Qed.

(** ** The content scorer *)

Lemma insert_loop_lookup (v : Q) (l : list string) (acc : gmap string Q) (c : string) :
  fold_left (fun scores course_id => <[course_id := v]> scores) l acc !! c =
  if decide (c ∈ l) then Some v else acc !! c.
Proof.
  revert acc. induction l as [| x l IH]; intros acc.
  - destruct (decide (c ∈ [])) as [Hin | _]; [by apply elem_of_nil in Hin | done].
  - cbn [fold_left]. rewrite IH.
    destruct (decide (c ∈ l)) as [Hin | Hnin], (decide (c ∈ x :: l)) as [Hin' | Hnin'];
      try done.
    + exfalso. apply Hnin'. by right.
    + apply elem_of_cons in Hin' as [-> | Hin']; [| done]. by rewrite lookup_insert_eq.
    + rewrite lookup_insert_ne; [done |]. intros ->. apply Hnin'. left.
Qed.

Lemma flat_scores_lookup (cf : CourseFeatures) (c : string) :
  flat_scores cf !! c = if decide (c ∈ course_ids cf) then Some 0.5%Q else None.
Proof. unfold flat_scores. by rewrite insert_loop_lookup, lookup_empty. Qed.

Lemma enumerate_elem_of (ids : list string) (i : nat) (c : string) :
  (i, c) ∈ imap (fun i cid => (i, cid)) ids ↔ ids !! i = Some c.
Proof.
  rewrite elem_of_lookup_imap. split.
  - by intros (j & y & [= -> ->] & Hy).
  - intros Hi. by exists i, c.
Qed.

Lemma enumerate_snd (ids : list string) : (imap (fun i cid => (i, cid)) ids).*2 = ids.
Proof.
  rewrite fmap_imap. apply list_eq. intros i.
  rewrite list_lookup_imap. by destruct (ids !! i).
Qed.

Lemma enrolled_indices_nil (cf : CourseFeatures) (enrolled_courses : list string) :
  enrolled_indices cf enrolled_courses = [] ↔
  ∀ c, c ∈ enrolled_courses → c ∉ course_ids cf.
Proof.
  unfold enrolled_indices. split.
  - intros Hnil%fmap_nil_inv c Hc Hid.
    apply list_elem_of_lookup in Hid as [i Hi].
    apply (filter_nil_not_elem_of _ _ (i, c) Hnil); [done |].
    by apply enumerate_elem_of.
  - intros Hnone.
    destruct (filter _ _) as [| [i c] l] eqn:Hf; [done |].
    assert (Hin : (i, c) ∈ filter (fun ic : nat * string => ic.2 ∈ enrolled_courses)
                    (imap (fun i cid => (i, cid)) (course_ids cf)))
      by (rewrite Hf; left).
    apply list_elem_of_filter in Hin as [Hen Hin]. apply enumerate_elem_of in Hin.
    exfalso. apply (Hnone c Hen). by eapply list_elem_of_lookup_2.
Qed.

Lemma enrolled_indices_lt (cf : CourseFeatures) (enrolled_courses : list string) (i : nat) :
  i ∈ enrolled_indices cf enrolled_courses → i < length (course_ids cf).
Proof.
  unfold enrolled_indices. intros ([j c] & -> & Hin)%list_elem_of_fmap.
  apply list_elem_of_filter in Hin as [_ Hin]. apply enumerate_elem_of in Hin.
  by eapply lookup_lt_Some.
Qed.

Lemma cold_start_iff (cf : CourseFeatures) (enrolled_courses : list string) :
  cold_start cf enrolled_courses ↔
  enrolled_courses = [] ∨ enrolled_indices cf enrolled_courses = [].
Proof.
  unfold cold_start. by rewrite enrolled_indices_nil.
Qed.

Lemma content_loop_keys (enrolled_courses : list string) (similarities : list Q)
    (items : list (nat * string)) (scores : gmap string Q) :
  (∀ i c, (i, c) ∈ items → i < length similarities) →
  ∃ m, content_loop enrolled_courses similarities items scores = Some m ∧
       ∀ c, is_Some (m !! c) ↔
            (c ∈ items.*2 ∧ c ∉ enrolled_courses) ∨ is_Some (scores !! c).
Proof.
  revert scores. induction items as [| [i c0] items IH]; intros scores Hlt.
  - exists scores. split; [done |]. intros c. rewrite fmap_nil.
    split; [by right |]. by intros [[?%elem_of_nil _] | ?].
  - assert (Hlt' : ∀ i c, (i, c) ∈ items → i < length similarities)
      by (intros j c Hc; apply (Hlt j c); by right).
    cbn [content_loop]. destruct (decide (c0 ∈ enrolled_courses)) as [Hen | Hnen].
    + destruct (IH scores Hlt') as (m & -> & Hm). exists m. split; [done |].
      intros c. rewrite Hm, fmap_cons, elem_of_cons. simpl.
      clear -Hen. intuition (subst; done).
    + destruct (lookup_lt_is_Some_2 similarities i) as [v Hv];
        [apply (Hlt i c0); left |].
      rewrite Hv. cbn [mbind option_bind].
      destruct (IH (<[c0 := v]> scores) Hlt') as (m & -> & Hm).
      exists m. split; [done |]. intros c.
      rewrite Hm, fmap_cons, elem_of_cons, lookup_insert_is_Some. simpl.
      clear -Hnen. destruct (decide (c0 = c)) as [<- | Hne]; intuition (subst; done).
Qed.

Section ContentProperties.

Variable cosine_similarity : list Q → list Q → Q.

Lemma content_scores_cold (cr : CourseRecommender) (enrolled_courses : list string) :
  cold_start (course_features cr) enrolled_courses →
  get_content_based_scores cosine_similarity cr enrolled_courses =
  Some (flat_scores (course_features cr)).
Proof.
  intros Hcold%cold_start_iff. unfold get_content_based_scores.
  destruct enrolled_courses as [| e es]; [done |].
  destruct Hcold as [? | ->]; done.
Qed.

Lemma content_scores_warm (cr : CourseRecommender) (enrolled_courses : list string) :
  length (features (course_features cr)) = length (course_ids (course_features cr)) →
  ¬ cold_start (course_features cr) enrolled_courses →
  ∃ m, get_content_based_scores cosine_similarity cr enrolled_courses = Some m ∧
       ∀ c, is_Some (m !! c) ↔
            c ∈ course_ids (course_features cr) ∧ c ∉ enrolled_courses.
Proof.
  intros Hlen Hwarm. rewrite cold_start_iff in Hwarm.
  unfold get_content_based_scores.
  destruct enrolled_courses as [| e es]; [exfalso; apply Hwarm; by left |].
  set (enrolled_courses := e :: es) in *.
  pose proof (enrolled_indices_lt (course_features cr) enrolled_courses) as Hlt.
  destruct (enrolled_indices (course_features cr) enrolled_courses)
    as [| i0 indices] eqn:Hind; [exfalso; apply Hwarm; by right |].
  destruct (mapM_is_Some_2 (fun i => features (course_features cr) !! i)
              (i0 :: indices)) as [rows Hrows].
  { apply Forall_forall. intros i Hi. simpl.
    apply lookup_lt_is_Some_2. rewrite Hlen. by apply Hlt. }
  rewrite Hrows. cbn [mbind option_bind].
  destruct (content_loop_keys enrolled_courses
              (cosine_similarity (mean_axis0 rows) <$> features (course_features cr))
              (imap (fun i cid => (i, cid)) (course_ids (course_features cr))) ∅)
    as (m & Hm & Hkeys).
  { intros i c Hic%enumerate_elem_of. rewrite length_fmap, Hlen.
    by eapply lookup_lt_Some. }
  exists m. split; [done |]. intros c.
  rewrite Hkeys, enumerate_snd, lookup_empty. split.
  - intros [? | [? ?]]; done.
  - by left.
Qed.

Lemma cold_start_excludes_enrolled (cr : CourseRecommender)
    (enrolled_courses : list string) (m : gmap string Q) (c : string) :
  cold_start (course_features cr) enrolled_courses →
  get_content_based_scores cosine_similarity cr enrolled_courses = Some m →
  c ∈ enrolled_courses → m !! c = None.
Proof.
  intros Hcold Hm Hc. rewrite content_scores_cold in Hm by done.
  injection Hm as <-. rewrite flat_scores_lookup.
  destruct Hcold as [-> | Hnone]; [by apply elem_of_nil in Hc |].
  destruct (decide _) as [Hid | _]; [| done]. by destruct (Hnone c Hc).
Qed.

(** C7, as the code has it.  When the enrolment list is empty, or none of
    its courses occurs in the course-ID list of the feature matrix, the
    content scorer returns the flat mapping: 0.5 for every course of the
    feature matrix and nothing else, so that no enrolled course has an
    entry.  Otherwise (the feature rows being aligned with the course IDs)
    it returns a mapping over exactly the courses of the feature matrix
    that are not enrolled.  An enrolled course is a key of the result in
    neither case. *)
Theorem content_scores_flat_or_excluding (cr : CourseRecommender)
    (enrolled_courses : list string) :
  (cold_start (course_features cr) enrolled_courses →
     ∃ m, get_content_based_scores cosine_similarity cr enrolled_courses = Some m ∧
          (∀ c, m !! c =
                if decide (c ∈ course_ids (course_features cr))
                then Some 0.5%Q else None) ∧
          (∀ c, c ∈ enrolled_courses → m !! c = None)) ∧
  (¬ cold_start (course_features cr) enrolled_courses →
   length (features (course_features cr)) = length (course_ids (course_features cr)) →
     ∃ m, get_content_based_scores cosine_similarity cr enrolled_courses = Some m ∧
          (∀ c, c ∈ enrolled_courses → m !! c = None) ∧
          (∀ c, is_Some (m !! c) ↔
                c ∈ course_ids (course_features cr) ∧ c ∉ enrolled_courses)).
Proof.
  split.
  - intros Hcold. exists (flat_scores (course_features cr)).
    pose proof (content_scores_cold cr enrolled_courses Hcold) as Hm.
    split; [done |]. split; [apply flat_scores_lookup |].
    intros c Hc. by eapply cold_start_excludes_enrolled.
  - intros Hwarm Hlen.
    destruct (content_scores_warm cr enrolled_courses Hlen Hwarm) as (m & Hm & Hkeys).
    exists m. split; [done |]. split; [| done].
    intros c Hc. apply eq_None_not_Some. rewrite Hkeys. by intros [_ ?].
Qed.

End ContentProperties.

(** C7 on [campus]: with no enrolment every course scores 0.5; once [cs101]
    is enrolled it has no entry. *)
Lemma content_scores_flat_or_excluding_witness :
  cold_start (course_features campus) [] ∧
  ¬ cold_start (course_features campus) ["cs101"] ∧
  length (features (course_features campus)) =
    length (course_ids (course_features campus)) ∧
  (∃ m, get_content_based_scores approx_cosine campus [] = Some m ∧
        m !! "cs101" = Some 0.5%Q) ∧
  (∃ m, get_content_based_scores approx_cosine campus ["cs101"] = Some m ∧
        m !! "cs101" = None ∧ is_Some (m !! "ma201")).
Proof.
  assert (Hlen : length (features (course_features campus)) =
                 length (course_ids (course_features campus))) by reflexivity.
  assert (Hcold : cold_start (course_features campus) []) by (by left).
  assert (Hwarm : ¬ cold_start (course_features campus) ["cs101"]).
  { intros [? | Hnone]; [done |]. apply (Hnone "cs101"); [left |].
    by apply (bool_decide_unpack _). }
  split_and!; try done.
  - destruct (proj1 (content_scores_flat_or_excluding approx_cosine campus [])
                Hcold) as (m & Hm & Hlook & _).
    exists m. split; [done |]. by rewrite Hlook.
  - destruct (proj2 (content_scores_flat_or_excluding approx_cosine campus ["cs101"])
                Hwarm Hlen) as (m & Hm & Hout & Hkeys).
    exists m. split; [done |]. split; [apply Hout; left |].
    apply Hkeys. split; [by apply (bool_decide_unpack _) |].
    by intros ?%list_elem_of_singleton.
Defined.

(** C7 as the specification states it fails on [campus]: the student is
    enrolled in [zz999] only, a course the feature matrix does not know, so
    the flat branch is taken; the enrolled course is not given 0.5, it has
    no entry at all. *)
Lemma flat_scores_skip_enrolled_course :
  cold_start (course_features campus) ["zz999"] ∧
  ∃ m, get_content_based_scores approx_cosine campus ["zz999"] = Some m ∧
       m !! "zz999" = None ∧
       m !! "zz999" ≠ Some 0.5%Q.
Proof.
  assert (Hcold : cold_start (course_features campus) ["zz999"]).
  { right. intros c ->%list_elem_of_singleton. by apply (bool_decide_unpack _). }
  split; [done |]. exists (flat_scores (course_features campus)).
  split; [by apply content_scores_cold |].
  assert (Hnone : flat_scores (course_features campus) !! "zz999" = None).
  { rewrite flat_scores_lookup. apply decide_False. by apply (bool_decide_unpack _). }
  split; [done |]. by rewrite Hnone.
Qed.

(** ** The hybrid recommender *)

Lemma hybrid_score_spec (cf_weight cb_weight : Q) (cf_scores cb_scores : gmap string Q)
    (c : string) :
  hybrid_score cf_weight cb_weight cf_scores cb_scores c =
  spec_hybrid_score cf_weight cb_weight cf_scores cb_scores c.
Proof.
  unfold hybrid_score, spec_hybrid_score.
  by destruct (cf_scores !! c), (cb_scores !! c).
Qed.

Lemma py_slice_to_subseteq {A} (n : Z) (l : list A) : py_slice_to n l ⊆ l.
Proof. unfold py_slice_to. destruct (0 <=? n)%Z; apply subseteq_take. Qed.

Lemma py_slice_to_length {A} (n : Z) (l : list A) :
  (0 ≤ n)%Z → (length (py_slice_to n l) ≤ Z.to_nat n)%nat.
Proof.
  intros Hn. unfold py_slice_to. rewrite (proj2 (Z.leb_le 0 n) Hn).
  rewrite length_take. lia.
Qed.

Lemma py_slice_to_all {A} (n : Z) (l : list A) :
  (Z.of_nat (length l) ≤ n)%Z → py_slice_to n l = l.
Proof.
  intros Hn. unfold py_slice_to. rewrite (proj2 (Z.leb_le 0 n)) by lia.
  apply take_ge. lia.
Qed.

Section HybridProperties.

Variable cosine_similarity : list Q → list Q → Q.
Variable set_iter : gset string → list string.

(** A set is iterated in some order, each element once. *)
Hypothesis set_iter_perm : ∀ X, set_iter X ≡ₚ elements X.

Lemma hybrid_scores_elem (cf_weight cb_weight : Q) (cf_scores cb_scores : gmap string Q)
    (c : string) (v : Q) :
  (c, v) ∈ hybrid_scores set_iter cf_weight cb_weight cf_scores cb_scores ↔
  c ∈ dom cf_scores ∪ dom cb_scores ∧
  v = spec_hybrid_score cf_weight cb_weight cf_scores cb_scores c.
Proof using set_iter_perm.
  unfold hybrid_scores. rewrite list_elem_of_fmap. split.
  - intros (c' & [= -> ->] & Hin). rewrite set_iter_perm, elem_of_elements in Hin.
    split; [done | apply hybrid_score_spec].
  - intros [Hin ->]. exists c. rewrite hybrid_score_spec. split; [done |].
    by rewrite set_iter_perm, elem_of_elements.
Qed.

Lemma hybrid_scores_keys (cf_weight cb_weight : Q) (cf_scores cb_scores : gmap string Q) :
  (hybrid_scores set_iter cf_weight cb_weight cf_scores cb_scores).*1 =
  set_iter (dom cf_scores ∪ dom cb_scores).
Proof.
  unfold hybrid_scores. rewrite <- list_fmap_compose. apply list_fmap_id.
Qed.

Lemma recommend_Some (cr : CourseRecommender) (student_id : string)
    (enrolled_courses : list string) (n : Z) (cf_weight cb_weight : Q)
    (cf_scores cb_scores : gmap string Q) :
  get_collaborative_scores cr student_id 10 = Some cf_scores →
  get_content_based_scores cosine_similarity cr enrolled_courses = Some cb_scores →
  recommend cosine_similarity set_iter cr student_id enrolled_courses n
            cf_weight cb_weight =
  Some (py_slice_to n
          (sort_desc (hybrid_scores set_iter cf_weight cb_weight cf_scores cb_scores))).
Proof. intros Hcf Hcb. unfold recommend. by rewrite Hcf, Hcb. Qed.

Lemma recommend_Some_inv (cr : CourseRecommender) (student_id : string)
    (enrolled_courses : list string) (n : Z) (cf_weight cb_weight : Q)
    (recs : list (string * Q)) :
  recommend cosine_similarity set_iter cr student_id enrolled_courses n
            cf_weight cb_weight = Some recs →
  ∃ cf_scores cb_scores,
    get_collaborative_scores cr student_id 10 = Some cf_scores ∧
    get_content_based_scores cosine_similarity cr enrolled_courses = Some cb_scores ∧
    recs = py_slice_to n
             (sort_desc (hybrid_scores set_iter cf_weight cb_weight cf_scores cb_scores)).
Proof.
  unfold recommend. intros Hrec.
  destruct (get_collaborative_scores cr student_id 10) as [cf |]; [| done].
  destruct (get_content_based_scores cosine_similarity cr enrolled_courses)
    as [cb |]; [| done].
  simpl in Hrec. injection Hrec as <-. by exists cf, cb.
Qed.

(** C6.  The hybrid mapping has exactly one entry per course of the
    candidate set, the union of the keys of the two score mappings, and
    its value is [cf_weight] times the collaborative score over 4.0 (when
    that score is positive, 0 otherwise) plus [cb_weight] times the
    content score, a course absent from a mapping counting for 0.  Every
    pair [recommend] returns is such an entry, for any weights; the
    defaults are 0.6 and 0.4. *)
Theorem hybrid_score_formula :
  (∀ (cf_weight cb_weight : Q) (cf_scores cb_scores : gmap string Q),
     (∀ c v, (c, v) ∈ hybrid_scores set_iter cf_weight cb_weight cf_scores cb_scores ↔
             c ∈ dom cf_scores ∪ dom cb_scores ∧
             v = (cf_weight *
                    match cf_scores !! c with
                    | Some s => if Qlt_bool 0 s then s / 4.0 else 0
                    | None => 0
                    end +
                  cb_weight *
                    match cb_scores !! c with Some s => s | None => 0 end)%Q) ∧
     NoDup (hybrid_scores set_iter cf_weight cb_weight cf_scores cb_scores).*1) ∧
  (∀ cr student_id enrolled_courses n cf_weight cb_weight recs,
     recommend cosine_similarity set_iter cr student_id enrolled_courses n
               cf_weight cb_weight = Some recs →
     ∃ cf_scores cb_scores,
       get_collaborative_scores cr student_id 10 = Some cf_scores ∧
       get_content_based_scores cosine_similarity cr enrolled_courses = Some cb_scores ∧
       ∀ c v, (c, v) ∈ recs →
              c ∈ dom cf_scores ∪ dom cb_scores ∧
              v = spec_hybrid_score cf_weight cb_weight cf_scores cb_scores c) ∧
  (∀ cr student_id enrolled_courses n,
     recommend_default cosine_similarity set_iter cr student_id enrolled_courses n =
     recommend cosine_similarity set_iter cr student_id enrolled_courses n 0.6 0.4).
Proof using set_iter_perm.
  split_and!.
  - intros cf_weight cb_weight cf_scores cb_scores. split.
    + intros c v. apply hybrid_scores_elem.
    + rewrite hybrid_scores_keys, set_iter_perm. apply NoDup_elements.
  - intros cr student_id enrolled_courses n cf_weight cb_weight recs Hrec.
    destruct (recommend_Some_inv _ _ _ _ _ _ _ Hrec) as (cf & cb & Hcf & Hcb & ->).
    exists cf, cb. split; [done |]. split; [done |].
    intros c v Hin. apply py_slice_to_subseteq in Hin.
    rewrite sort_desc_perm in Hin. by apply hybrid_scores_elem.
  - done.
Qed.

End HybridProperties.

(** C6 with the set iterated in the order of [elements]: the entry of a
    course scored 3.5 by the collaborative scorer alone, default weights. *)
Lemma hybrid_score_formula_witness :
  (∀ X : gset string, elements X ≡ₚ elements X) ∧
  ("ma201", (0.6 * (3.5 / 4.0) + 0.4 * 0)%Q) ∈
    hybrid_scores elements 0.6 0.4 {[ "ma201" := 3.5%Q ]} {[ "ph301" := 0.5%Q ]}.
Proof.
  assert (Hperm : ∀ X : gset string, elements X ≡ₚ elements X) by done.
  split; [exact Hperm |].
  apply (proj1 (proj1 (hybrid_score_formula approx_cosine elements Hperm) 0.6%Q 0.4%Q
                  {[ "ma201" := 3.5%Q ]} {[ "ph301" := 0.5%Q ]})).
  split; [| done]. rewrite !dom_singleton_L. set_solver.
Defined.

Section NoFiltering.

Variable cosine_similarity : list Q → list Q → Q.
Variable set_iter : gset string → list string.
Hypothesis set_iter_perm : ∀ X, set_iter X ≡ₚ elements X.

(** When [n] is at least the number of candidates, every candidate is
    returned, enrolled or not. *)
Lemma recommend_complete (cr : CourseRecommender) (student_id : string)
    (enrolled_courses : list string) (n : Z) (cf_weight cb_weight : Q)
    (cf_scores cb_scores : gmap string Q) (c : string) :
  get_collaborative_scores cr student_id 10 = Some cf_scores →
  get_content_based_scores cosine_similarity cr enrolled_courses = Some cb_scores →
  c ∈ dom cf_scores ∪ dom cb_scores →
  (Z.of_nat (size (dom cf_scores ∪ dom cb_scores)) ≤ n)%Z →
  ∃ recs,
    recommend cosine_similarity set_iter cr student_id enrolled_courses n
              cf_weight cb_weight = Some recs ∧
    (c, spec_hybrid_score cf_weight cb_weight cf_scores cb_scores c) ∈ recs.
Proof using set_iter_perm.
  intros Hcf Hcb Hc Hn. eexists. split; [by apply recommend_Some |].
  rewrite py_slice_to_all.
  - rewrite sort_desc_perm. by apply hybrid_scores_elem.
  - rewrite sort_desc_length. unfold hybrid_scores.
    by rewrite length_fmap, set_iter_perm.
Qed.

(** C10, as the code has it.  In its cold-start branch the content scorer
    has no entry for an enrolled course.  [recommend] filters nothing:
    every candidate is returned when [n] allows, with its hybrid score.
    And [recommend] does return an enrolled course: on [campus], [ann] is
    enrolled in [ma201] without a grade, the collaborative scorer scores
    it 3.5 from [bob], and it is recommended with score 0.6 * 3.5 / 4. *)
Theorem recommend_keeps_enrolled_course :
  (∀ cr enrolled_courses m c,
     cold_start (course_features cr) enrolled_courses →
     get_content_based_scores cosine_similarity cr enrolled_courses = Some m →
     c ∈ enrolled_courses → m !! c = None) ∧
  (∀ cr student_id enrolled_courses n cf_weight cb_weight cf_scores cb_scores c,
     get_collaborative_scores cr student_id 10 = Some cf_scores →
     get_content_based_scores cosine_similarity cr enrolled_courses = Some cb_scores →
     c ∈ dom cf_scores ∪ dom cb_scores →
     (Z.of_nat (size (dom cf_scores ∪ dom cb_scores)) ≤ n)%Z →
     ∃ recs,
       recommend cosine_similarity set_iter cr student_id enrolled_courses n
                 cf_weight cb_weight = Some recs ∧
       (c, spec_hybrid_score cf_weight cb_weight cf_scores cb_scores c) ∈ recs) ∧
  (∃ recs v,
     recommend_default cosine_similarity set_iter campus "ann" ["cs101"; "ma201"] 10
       = Some recs ∧
     ("ma201", v) ∈ recs ∧ "ma201" ∈ ["cs101"; "ma201"] ∧ (v == 0.525)%Q).
Proof using set_iter_perm.
  split_and!.
  - intros cr enrolled_courses m c. apply cold_start_excludes_enrolled.
  - intros cr student_id enrolled_courses n cf_weight cb_weight cf cb c.
    apply recommend_complete.
  - assert (Hs : "ann" ∈ df_index (user_item_matrix campus))
      by (by apply (bool_decide_unpack _)).
    destruct (collaborative_scores_lookup campus "ann" 10 campus_aligned Hs)
      as (users & cf & _ & Hcf & Hlook).
    assert (Hwarm : ¬ cold_start (course_features campus) ["cs101"; "ma201"]).
    { intros [? | Hnone]; [done |]. apply (Hnone "cs101"); [left |].
      by apply (bool_decide_unpack _). }
    destruct (content_scores_warm cosine_similarity campus ["cs101"; "ma201"]
                eq_refl Hwarm) as (cb & Hcb & Hkeys).
    assert (Hcfv : cf !! "ma201" = Some (227500 # 65000)).
    { assert (H : get_collaborative_scores campus "ann" 10 ≫= (fun m => m !! "ma201")
                  = Some (227500 # 65000)) by (by vm_compute).
      by rewrite Hcf in H. }
    assert (Hcbv : cb !! "ma201" = None).
    { apply eq_None_not_Some. rewrite Hkeys. intros [_ Hout]. apply Hout.
      by apply (bool_decide_unpack _). }
    assert (Hin : "ma201" ∈ dom cf ∪ dom cb).
    { apply elem_of_union. left. apply elem_of_dom. by rewrite Hcfv. }
    assert (Hsize : (Z.of_nat (size (dom cf ∪ dom cb)) ≤ 10)%Z).
    { assert (Hsub : dom cf ∪ dom cb ⊆
                     (list_to_set ["cs101"; "ma201"; "ph301"] : gset string)).
      { intros c [Hc | Hc]%elem_of_union; apply elem_of_dom in Hc;
          apply elem_of_list_to_set.
        - rewrite Hlook in Hc. destruct (decide _) as [[Hcol _] | _]; [done |].
          by destruct Hc.
        - by apply Hkeys in Hc as [Hid _]. }
      apply subseteq_size in Hsub. rewrite size_list_to_set in Hsub.
      + simpl in Hsub. lia.
      + by apply (bool_decide_unpack _). }
    destruct (recommend_complete campus "ann" ["cs101"; "ma201"] 10 0.6%Q 0.4%Q
                cf cb "ma201" Hcf Hcb Hin Hsize) as (recs & Hrecs & Hrec).
    exists recs, (spec_hybrid_score 0.6 0.4 cf cb "ma201").
    split_and!; [done | done | by apply (bool_decide_unpack _) |].
    unfold spec_hybrid_score. rewrite Hcfv, Hcbv. by vm_compute.
Qed.

End NoFiltering.

(** C10 with the set iterated in the order of [elements]. *)
Lemma recommend_keeps_enrolled_course_witness :
  (∀ X : gset string, elements X ≡ₚ elements X) ∧
  ∃ recs v,
    recommend_default approx_cosine elements campus "ann" ["cs101"; "ma201"] 10
      = Some recs ∧
    ("ma201", v) ∈ recs ∧ "ma201" ∈ ["cs101"; "ma201"] ∧ (v == 0.525)%Q.
Proof.
  assert (Hperm : ∀ X : gset string, elements X ≡ₚ elements X) by done.
  split; [exact Hperm |].
  exact (proj2 (proj2 (recommend_keeps_enrolled_course approx_cosine elements Hperm))).
Defined.

(** C10 as stated fails: whatever the artifact and the enrolment list, the
    cold-start branch of the content scorer puts no enrolled course in its
    mapping, so no enrolled course enters the candidate set with the
    content score 0.5. *)
Lemma cold_start_scores_no_enrolled_course :
  ¬ ∃ (cosine_similarity : list Q → list Q → Q) (cr : CourseRecommender)
      (enrolled_courses : list string) (c : string) (m : gmap string Q),
      cold_start (course_features cr) enrolled_courses ∧
      get_content_based_scores cosine_similarity cr enrolled_courses = Some m ∧
      c ∈ enrolled_courses ∧ is_Some (m !! c).
Proof.
  intros (cosine_similarity & cr & enrolled_courses & c & m & Hcold & Hm & Hc & Hsome).
  rewrite (cold_start_excludes_enrolled _ _ _ _ _ Hcold Hm Hc) in Hsome.
  by destruct Hsome.
Qed.

(** ** The popularity fallback *)

Lemma nlargest_length (n : Z) (s : Series) : (length (nlargest n s) ≤ Z.to_nat n)%nat.
Proof. unfold nlargest. rewrite length_take. lia. Qed.

Lemma nlargest_sorted (n : Z) (s : Series) :
  StronglySorted (fun a b => (b.2 <= a.2)%Q) (nlargest n s).
Proof. apply StronglySorted_take_prefix, sort_desc_sorted. Qed.

(** The Series splits into the entries kept and the entries cut, and no
    entry cut has a larger value than an entry kept. *)
Lemma nlargest_top (n : Z) (s : Series) :
  ∃ rest, (nlargest n s ++ rest)%list ≡ₚ s ∧
          ∀ a b, a ∈ nlargest n s → b ∈ rest → (b.2 <= a.2)%Q.
Proof.
  exists (drop (Z.to_nat n) (sort_desc s)). unfold nlargest. split.
  - by rewrite take_drop, sort_desc_perm.
  - intros a b Ha Hb.
    apply (StronglySorted_app_1_elem_of (fun a b => (b.2 <= a.2)%Q)
             (take (Z.to_nat n) (sort_desc s)) (drop (Z.to_nat n) (sort_desc s)));
      [| done | done].
    rewrite take_drop. apply sort_desc_sorted.
Qed.

Lemma count_positive_elem (df : DataFrame) (c : string) (v : Q) :
  (c, v) ∈ count_positive df ↔
  ∃ j, df_columns df !! j = Some c ∧ v = positive_count df j.
Proof.
  unfold count_positive. rewrite elem_of_lookup_imap. split.
  - intros (j & c' & [= -> ->] & Hj). by exists j.
  - intros (j & Hj & ->). by exists j, c.
Qed.

Lemma positive_count_nonzero (df : DataFrame) (j : nat) :
  Forall (Forall (fun x => (0 <= x)%Q)) (df_values df) →
  positive_count df j = nonzero_count df j.
Proof.
  intros Hnonneg. unfold positive_count, nonzero_count. f_equal.
  induction Hnonneg as [| row rows Hrow _ IH]; [done |].
  rewrite !filter_cons, IH.
  assert (Hcell : (0 <= default 0 (row !! j))%Q).
  { destruct (row !! j) as [x |] eqn:Hx; simpl; [| done].
    rewrite Forall_forall in Hrow. apply Hrow. by eapply list_elem_of_lookup_2. }
  destruct (decide (Qlt_bool 0 (default 0%Q (row !! j)) = true)) as [Hpos | Hnpos],
           (decide (Qeq_bool (default 0%Q (row !! j)) 0 = false)) as [Hnz | Hz];
    try done; exfalso.
  - apply Qlt_bool_true in Hpos. apply not_false_is_true, Qeq_bool_iff in Hz. lra.
  - apply not_true_is_false, Qlt_bool_false in Hnpos.
    assert (Heq : (default 0 (row !! j) == 0)%Q) by lra.
    apply Qeq_bool_iff in Heq. congruence.
Qed.

(** C8, as the code has it.  The popularity fallback returns the labels of
    the [n] first entries of the per-column counts of positive cells sorted
    by count, descending: at most [n] course IDs, each a column of the
    user-item matrix paired with its count, in non-increasing order of
    count, and no column left out has a larger count than a column
    returned.  In a matrix without negative cells the count of positive
    cells is the count of non-zero cells. *)
Theorem popular_courses_ranked (cr : CourseRecommender) (n : Z) :
  let ranked := nlargest n (count_positive (user_item_matrix cr)) in
  get_popular_courses cr n = ranked.*1 ∧
  (length (get_popular_courses cr n) ≤ Z.to_nat n)%nat ∧
  StronglySorted (fun a b => (b.2 <= a.2)%Q) ranked ∧
  (∀ c v, (c, v) ∈ ranked →
     ∃ j, df_columns (user_item_matrix cr) !! j = Some c ∧
          v = positive_count (user_item_matrix cr) j) ∧
  (∃ rest, (ranked ++ rest)%list ≡ₚ count_positive (user_item_matrix cr) ∧
           ∀ a b, a ∈ ranked → b ∈ rest → (b.2 <= a.2)%Q) ∧
  (Forall (Forall (fun x => (0 <= x)%Q)) (df_values (user_item_matrix cr)) →
   ∀ j, positive_count (user_item_matrix cr) j = nonzero_count (user_item_matrix cr) j).
Proof.
  intros ranked. split_and!.
  - done.
  - unfold get_popular_courses. rewrite length_fmap. apply nlargest_length.
  - apply nlargest_sorted.
  - intros c v Hin. apply count_positive_elem.
    apply (subseteq_take (Z.to_nat n)) in Hin. by rewrite sort_desc_perm in Hin.
  - apply nlargest_top.
  - intros Hnonneg j. by apply positive_count_nonzero.
Qed.

(** C8 as stated fails on [twins]: both courses have two positive cells,
    both are returned, and their counts do not strictly decrease. *)
Lemma popular_courses_not_strictly_ordered :
  get_popular_courses twins 2 = ["c1"; "c2"] ∧
  nlargest 2 (count_positive (user_item_matrix twins)) = [("c1", 2%Q); ("c2", 2%Q)] ∧
  ¬ StronglySorted (fun a b => (b.2 < a.2)%Q)
      (nlargest 2 (count_positive (user_item_matrix twins))).
Proof.
  assert (Hval : nlargest 2 (count_positive (user_item_matrix twins)) =
                 [("c1", 2%Q); ("c2", 2%Q)]) by (by vm_compute).
  split_and!; [by vm_compute | done |].
  rewrite Hval. intros Hs. apply StronglySorted_inv in Hs as [_ Hall].
  apply Forall_inv in Hall. simpl in Hall. lra.
Qed.


(** * Further properties of the code *)

(** ** Sums and means *)

Lemma py_sum_acc (l : list Q) (a : Q) : (fold_left Qplus l a == a + py_sum l)%Q.
Proof.
  unfold py_sum. revert a. induction l as [| x l IH]; intros a; simpl.
  - ring.
  - rewrite (IH (a + x)%Q), (IH (0 + x)%Q). ring.
Qed.

Lemma py_sum_cons (x : Q) (l : list Q) : (py_sum (x :: l) == x + py_sum l)%Q.
Proof. unfold py_sum at 1. simpl. rewrite py_sum_acc. ring. Qed.

Lemma py_len_cons {A} (x : A) (l : list A) : (py_len (x :: l) == 1 + py_len l)%Q.
Proof.
  unfold py_len. simpl length. rewrite Nat2Z.inj_succ, <- Z.add_1_l, inject_Z_plus.
  reflexivity.
Qed.

Lemma py_len_nonneg {A} (l : list A) : (0 <= py_len l)%Q.
Proof. unfold py_len. rewrite <- (Zle_Qle 0). lia. Qed.

Lemma py_sum_bounds (lo hi : Q) (l : list Q) :
  Forall (fun x => (lo <= x)%Q ∧ (x <= hi)%Q) l →
  (lo * py_len l <= py_sum l)%Q ∧ (py_sum l <= hi * py_len l)%Q.
Proof.
  induction 1 as [| x l [Hlo Hhi] _ [IHlo IHhi]].
  - assert (H0 : (py_len (@nil Q) == 0)%Q) by reflexivity.
    assert (H1 : (py_sum [] == 0)%Q) by reflexivity.
    rewrite H0, H1. split; lra.
  - rewrite py_sum_cons, py_len_cons. split; nra.
Qed.

Lemma mean_bounds (lo hi : Q) (x : Q) (l : list Q) :
  Forall (fun y => (lo <= y)%Q ∧ (y <= hi)%Q) (x :: l) →
  (lo <= py_sum (x :: l) / py_len (x :: l))%Q ∧
  (py_sum (x :: l) / py_len (x :: l) <= hi)%Q.
Proof.
  intros Hall. destruct (py_sum_bounds lo hi _ Hall) as [Hlo Hhi].
  assert (Hpos : (0 < py_len (x :: l))%Q).
  { rewrite py_len_cons. pose proof (py_len_nonneg l). lra. }
  split.
  - apply Qle_shift_div_l; [done |]. lra.
  - apply Qle_shift_div_r; [done |]. lra.
Qed.

Lemma mean_or_zero_bounds (lo hi : Q) (l : list Q) :
  (lo <= 0)%Q → (0 <= hi)%Q →
  Forall (fun y => (lo <= y)%Q ∧ (y <= hi)%Q) l →
  (lo <= mean_or_zero l)%Q ∧ (mean_or_zero l <= hi)%Q.
Proof.
  intros Hlo Hhi Hall. destruct l as [| x l]; [simpl; split; lra |].
  by apply mean_bounds.
Qed.

(** ** Batch prediction and the confidence interval *)

Lemma predict_batch_map (np_sqrt : Q → Q) (gp : GradePredictor)
    (features_list : list (gmap string Q)) :
  predict_batch np_sqrt gp features_list = predict np_sqrt gp <$> features_list.
Proof.
  unfold predict_batch.
  enough (H : ∀ acc,
             fold_left (fun predictions fs =>
                          let '(pred, ci) := predict np_sqrt gp fs in
                          (predictions ++ [(pred, ci)])%list) features_list acc =
             (acc ++ (predict np_sqrt gp <$> features_list))%list) by apply H.
  induction features_list as [| fs l IH]; intros acc.
  - simpl. by rewrite app_nil_r.
  - cbn [fold_left]. rewrite fmap_cons.
    destruct (predict np_sqrt gp fs) as [pred ci].
    by rewrite IH, <- app_assoc.
Qed.

(** X1.  [predict_batch] returns one pair per input dictionary, in the
    order of the inputs; each pair is what [predict] returns for that
    dictionary, and every predicted grade lies in [0, 4]. *)
Theorem predict_batch_pointwise (np_sqrt : Q → Q) (gp : GradePredictor)
    (features_list : list (gmap string Q)) :
  length (predict_batch np_sqrt gp features_list) = length features_list ∧
  (∀ (i : nat) (fs : gmap string Q),
     features_list !! i = Some fs →
     predict_batch np_sqrt gp features_list !! i = Some (predict np_sqrt gp fs)) ∧
  Forall (fun p : Q * Q => (0 <= p.1)%Q ∧ (p.1 <= 4)%Q)
         (predict_batch np_sqrt gp features_list).
Proof.
  rewrite predict_batch_map. split_and!.
  - by rewrite length_fmap.
  - intros i fs Hi. by rewrite list_lookup_fmap, Hi.
  - apply Forall_fmap, Forall_forall. intros fs _. apply predict_point_clipped.
Qed.

(** X2.  The confidence interval does not look at the trees.  For a model
    that is no booster, or a booster with fewer than two estimators, it is
    the constant 1.96 * 0.2 = 0.392, whatever the features.  For a booster
    with at least two estimators it is 1.96 times the standard deviation of
    a list that holds [min(10, n_estimators)] copies of one number, the
    unclipped prediction of the whole model for the row. *)
Theorem interval_ignores_the_trees (np_sqrt : Q → Q) (gp : GradePredictor)
    (fs : gmap string Q) :
  let X_scaled := scaler_transform gp (feature_values gp fs) in
  match n_estimators (model gp) with
  | Some n =>
      if (2 <=? n)%Z
      then (predict np_sqrt gp fs).2 =
           (1.96 * np_std np_sqrt
                     (replicate (Z.to_nat (Z.min 10 n))
                                (model_predict (model gp) X_scaled)))%Q
      else ((predict np_sqrt gp fs).2 == 0.392)%Q
  | None => ((predict np_sqrt gp fs).2 == 0.392)%Q
  end.
Proof.
  unfold predict, std_dev. simpl.
  destruct (n_estimators (model gp)) as [n |]; [| reflexivity].
  rewrite length_replicate.
  destruct (2 <=? n)%Z eqn:Hn.
  - apply Z.leb_le in Hn.
    assert (Hk : (1 < Z.to_nat (Z.min 10 n))%nat) by lia.
    by rewrite (proj2 (Nat.ltb_lt _ _) Hk).
  - apply Z.leb_gt in Hn.
    assert (Hk : ¬ (1 < Z.to_nat (Z.min 10 n))%nat) by lia.
    apply Nat.ltb_nlt in Hk. rewrite Hk. reflexivity.
Qed.

(** ** The feature dictionaries *)

(** X3.  Both dictionaries the endpoints pass to [predict] have exactly
    the sixteen keys the training script registers as feature names: with a
    model trained by that script no feature is defaulted to 0 and no key is
    ignored. *)
Theorem endpoint_features_cover_trained_names (np_sqrt : Q → Q) (profile : ProfileRow)
    (rows : list EnrollmentRow) (course : CourseRow) (events : list InteractionRow) :
  dom (build_features np_sqrt profile rows course events) = list_to_set trained_features ∧
  dom (recommendation_features profile rows course) = list_to_set trained_features ∧
  (∀ gp : GradePredictor,
     feature_names gp = trained_features →
     Forall (fun name =>
               is_Some (build_features np_sqrt profile rows course events !! name) ∧
               is_Some (recommendation_features profile rows course !! name))
            (feature_names gp)).
Proof.
  assert (H1 : dom (build_features np_sqrt profile rows course events) =
               list_to_set trained_features)
    by (unfold build_features; by rewrite dom_list_to_map_L).
  assert (H2 : dom (recommendation_features profile rows course) =
               list_to_set trained_features)
    by (unfold recommendation_features; by rewrite dom_list_to_map_L).
  split_and!; [done | done |].
  intros gp ->. apply Forall_forall. intros name Hname.
  rewrite <- !elem_of_dom, H1, H2. split; by apply elem_of_list_to_set.
Qed.

Lemma build_features_mean_grade (np_sqrt : Q → Q) (profile : ProfileRow)
    (rows : list EnrollmentRow) (course : CourseRow) (events : list InteractionRow) :
  build_features np_sqrt profile rows course events !! "hist_mean_grade" =
    Some (mean_or_zero (omap en_grade rows)) ∧
  build_features np_sqrt profile rows course events !! "hist_avg_attendance" =
    Some (mean_or_zero (omap en_attendance_rate rows)) ∧
  build_features np_sqrt profile rows course events !! "hist_avg_completion" =
    Some (mean_or_zero (omap en_assignment_completion_rate rows)).
Proof. unfold build_features. split_and!; by simplify_map_eq. Qed.

Lemma Forall_omap_range {A} (f : A → option Q) (lo hi : Q) (l : list A) :
  (∀ x v, x ∈ l → f x = Some v → (lo <= v)%Q ∧ (v <= hi)%Q) →
  Forall (fun v => (lo <= v)%Q ∧ (v <= hi)%Q) (omap f l).
Proof.
  intros H. apply Forall_forall. intros v (x & Hx & Hv)%list_elem_of_omap. by eapply H.
Qed.

(** X4.  The historical averages of the feature dictionary stay in the
    range of the data: with grades in [0, 4] and rates in [0, 100] (null
    values are skipped), the mean grade lies in [0, 4] and the mean
    attendance and completion in [0, 100]; this includes the student
    without history, for whom the three means are 0 and nothing is divided
    by zero. *)
Theorem history_means_in_range (np_sqrt : Q → Q) (profile : ProfileRow)
    (rows : list EnrollmentRow) (course : CourseRow) (events : list InteractionRow) :
  (∀ e g, e ∈ rows → en_grade e = Some g → (0 <= g)%Q ∧ (g <= 4)%Q) →
  (∀ e a, e ∈ rows → en_attendance_rate e = Some a → (0 <= a)%Q ∧ (a <= 100)%Q) →
  (∀ e a, e ∈ rows → en_assignment_completion_rate e = Some a →
     (0 <= a)%Q ∧ (a <= 100)%Q) →
  ∃ g a c,
    build_features np_sqrt profile rows course events !! "hist_mean_grade" = Some g ∧
    build_features np_sqrt profile rows course events !! "hist_avg_attendance" = Some a ∧
    build_features np_sqrt profile rows course events !! "hist_avg_completion" = Some c ∧
    ((0 <= g)%Q ∧ (g <= 4)%Q) ∧ ((0 <= a)%Q ∧ (a <= 100)%Q) ∧
    ((0 <= c)%Q ∧ (c <= 100)%Q) ∧
    (rows = [] → (g == 0)%Q ∧ (a == 0)%Q ∧ (c == 0)%Q).
Proof.
  intros Hg Ha Hc.
  destruct (build_features_mean_grade np_sqrt profile rows course events)
    as (H1 & H2 & H3).
  pose proof (mean_or_zero_bounds 0 4 (omap en_grade rows)
                ltac:(lra) ltac:(lra) (Forall_omap_range _ _ _ _ Hg)) as Bg.
  pose proof (mean_or_zero_bounds 0 100 (omap en_attendance_rate rows)
                ltac:(lra) ltac:(lra) (Forall_omap_range _ _ _ _ Ha)) as Ba.
  pose proof (mean_or_zero_bounds 0 100 (omap en_assignment_completion_rate rows)
                ltac:(lra) ltac:(lra) (Forall_omap_range _ _ _ _ Hc)) as Bc.
  do 3 eexists. split; [exact H1 |]. split; [exact H2 |]. split; [exact H3 |].
  split; [exact Bg |]. split; [exact Ba |]. split; [exact Bc |]. by intros ->.
Qed.

(** Case analysis on the membership of a row in a literal list. *)
Ltac literal_rows H :=
  simpl in H;
  repeat (apply elem_of_cons in H as [-> | H]);
  [.. | by apply elem_of_nil in H].

(** X4 on the rows of [campus_db]. *)
Lemma history_means_in_range_witness :
  ∃ g, build_features approx_sqrt {| pr_high_school_gpa := 3.6; pr_year := 2;
                                     pr_age := None |}
         (enrollments campus_db)
         {| co_code := "CS101"; co_title := "Programming"; co_department := "CS";
            co_credits := 3; co_difficulty := "Beginner"; co_topics := None |}
         [] !! "hist_mean_grade" = Some g ∧
       (0 <= g)%Q ∧ (g <= 4)%Q.
Proof.
  destruct (history_means_in_range approx_sqrt
              {| pr_high_school_gpa := 3.6; pr_year := 2; pr_age := None |}
              (enrollments campus_db)
              {| co_code := "CS101"; co_title := "Programming"; co_department := "CS";
                 co_credits := 3; co_difficulty := "Beginner"; co_topics := None |}
              [])
    as (g & a & c & Hg & _ & _ & Bg & _).
  - intros e v He Hv. literal_rows He; simpl in Hv; try done;
      injection Hv as <-; split; discriminate.
  - intros e v He Hv. literal_rows He; simpl in Hv; try done;
      injection Hv as <-; split; discriminate.
  - intros e v He Hv. literal_rows He; simpl in Hv; try done;
      injection Hv as <-; split; discriminate.
  - exists g. by split.
Defined.

(** ** The response of [/predict-grade] *)

Lemma predict_grade_response_fields (np_sqrt : Q → Q) (gp : GradePredictor)
    (fs : gmap string Q) :
  predict_grade_response np_sqrt gp fs =
  {| predicted_grade := py_round2 (predict np_sqrt gp fs).1;
     confidence_interval := py_round2 (predict np_sqrt gp fs).2;
     grade_range_lower :=
       py_round2 (lower_bound (predict np_sqrt gp fs).1 (predict np_sqrt gp fs).2);
     grade_range_upper :=
       py_round2 (upper_bound (predict np_sqrt gp fs).1 (predict np_sqrt gp fs).2);
     letter_grade := grade_to_letter (predict np_sqrt gp fs).1 |}.
Proof. unfold predict_grade_response. by destruct (predict np_sqrt gp fs). Qed.

Lemma py_round2_just_below_3_7 (p : Q) :
  (3.695 < p)%Q → (p < 3.7)%Q → (py_round2 p == 3.7)%Q.
Proof.
  intros Hlo Hhi. unfold py_round2, round_half_even.
  pose proof (Qfloor_le (p * 100)) as Hfl.
  pose proof (Qlt_floor (p * 100)) as Hfu.
  rewrite inject_Z_plus in Hfu.
  assert (Hf : Qfloor (p * 100) = 369%Z).
  { apply Z.le_antisymm.
    - apply Z.lt_succ_r. rewrite Zlt_Qlt.
      change (inject_Z (Z.succ 369)) with 370%Q. lra.
    - apply Z.lt_succ_r. rewrite Zlt_Qlt, <- Z.add_1_r, inject_Z_plus.
      change (inject_Z 369) with 369%Q. change (inject_Z 1) with 1%Q in *. lra. }
  rewrite Hf.
  change (inject_Z 369) with 369%Q.
  assert (H1 : Qlt_bool (p * 100 - 369) (1 # 2) = false)
    by (apply Qlt_bool_false; lra).
  assert (H2 : Qlt_bool (1 # 2) (p * 100 - 369) = true)
    by (apply Qlt_bool_true; lra).
  rewrite H1, H2. reflexivity.
Qed.

(** X5.  The letter of the response is taken from the unrounded
    prediction while the grade is shown rounded to two decimals: for a
    prediction strictly between 3.695 and 3.7 the response shows the grade
    3.70, whose letter in the table is A, next to the letter A-. *)
Theorem letter_grade_of_unrounded_prediction (np_sqrt : Q → Q) (gp : GradePredictor)
    (fs : gmap string Q) :
  (3.695 < (predict np_sqrt gp fs).1)%Q →
  ((predict np_sqrt gp fs).1 < 3.7)%Q →
  let r := predict_grade_response np_sqrt gp fs in
  (predicted_grade r == 3.7)%Q ∧
  letter_grade r = "A-" ∧
  grade_to_letter (predicted_grade r) = "A".
Proof.
  intros Hlo Hhi r. subst r. rewrite predict_grade_response_fields.
  cbn [predicted_grade letter_grade].
  set (p := (predict np_sqrt gp fs).1) in *.
  pose proof (py_round2_just_below_3_7 p Hlo Hhi) as Hr. split_and!.
  - done.
  - unfold grade_to_letter.
    assert (H1 : Qle_bool 3.7 p = false) by (apply Qle_bool_false; lra).
    assert (H2 : Qle_bool 3.3 p = true) by (apply Qle_bool_iff; lra).
    by rewrite H1, H2.
  - unfold grade_to_letter.
    assert (H1 : Qle_bool 3.7 (py_round2 p) = true) by (apply Qle_bool_iff; lra).
    by rewrite H1.
Qed.

(** X5 for the model that always predicts 3.698. *)
Lemma letter_grade_of_unrounded_prediction_witness :
  let r := predict_grade_response approx_sqrt near_A_predictor ∅ in
  (predicted_grade r == 3.7)%Q ∧ letter_grade r = "A-".
Proof.
  assert (Hlo : (3.695 < (predict approx_sqrt near_A_predictor ∅).1)%Q) by done.
  assert (Hhi : ((predict approx_sqrt near_A_predictor ∅).1 < 3.7)%Q) by done.
  destruct (letter_grade_of_unrounded_prediction approx_sqrt near_A_predictor ∅ Hlo Hhi)
    as (H1 & H2 & _).
  by split.
Defined.

(** ** The status codes of the endpoints *)



Section EndpointProperties.

Variable np_sqrt : Q → Q.
Hypothesis np_sqrt_nonneg : ∀ x, (0 <= np_sqrt x)%Q.

Lemma response_in_range (gp : GradePredictor) (fs : gmap string Q) :
  let r := predict_grade_response np_sqrt gp fs in
  ((0 <= predicted_grade r)%Q ∧ (predicted_grade r <= 4)%Q) ∧
  ((grade_range_lower r <= predicted_grade r)%Q ∧
   (predicted_grade r <= grade_range_upper r)%Q).
Proof using np_sqrt_nonneg.
  intros r. subst r. rewrite predict_grade_response_fields.
  cbn [predicted_grade grade_range_lower grade_range_upper].
  pose proof (predict_point_clipped np_sqrt gp fs) as [Hp0 Hp4].
  pose proof (predict_interval_nonneg np_sqrt np_sqrt_nonneg gp fs) as Hci.
  set (p := (predict np_sqrt gp fs).1) in *.
  set (ci := (predict np_sqrt gp fs).2) in *.
  split_and!.
  - by apply py_round2_unit_range.
  - by apply py_round2_unit_range.
  - apply py_round2_mono. unfold lower_bound, py_max. q_tests; lra.
  - apply py_round2_mono. unfold upper_bound, py_min. q_tests; lra.
Qed.

(** X7.  With a model loaded and a request for the caller's own
    prediction, [/predict-grade] answers exactly when the caller has a
    profile and the course exists: the response is then built from the
    caller's completed enrolments and interactions, its grade lies in
    [0, 4] and inside its range.  A missing profile or an unknown course is
    answered 500. *)
Theorem predict_grade_outcome (gp : GradePredictor) (db : Tables)
    (course_id user_id : string) :
  match profiles db !! user_id, courses db !! course_id with
  | Some profile, Some course =>
      ∃ r,
        predict_grade np_sqrt (Some gp) db user_id course_id user_id = Returns r ∧
        r = predict_grade_response np_sqrt gp
              (build_features np_sqrt profile (completed_enrollments_of db user_id)
                 course (interactions_of db user_id)) ∧
        ((0 <= predicted_grade r)%Q ∧ (predicted_grade r <= 4)%Q) ∧
        ((grade_range_lower r <= predicted_grade r)%Q ∧
         (predicted_grade r <= grade_range_upper r)%Q)
  | _, _ =>
      predict_grade np_sqrt (Some gp) db user_id course_id user_id
        = Raises (HTTPException 500)
  end.
Proof using np_sqrt_nonneg.
  unfold predict_grade. rewrite decide_False by (by intros ?).
  destruct (profiles db !! user_id) as [profile |]; [| done].
  destruct (courses db !! course_id) as [course |]; [| done].
  eexists. split; [done |]. split; [done |]. apply response_in_range.
Qed.

End EndpointProperties.

(** X7 for [ann] and [cs101] in [campus_db]. *)
Lemma predict_grade_outcome_witness :
  (∀ x, (0 <= approx_sqrt x)%Q) ∧
  ∃ r, predict_grade approx_sqrt (Some trained_predictor) campus_db "ann" "cs101" "ann"
         = Returns r ∧
       (0 <= predicted_grade r)%Q ∧ (predicted_grade r <= 4)%Q.
Proof.
  split; [exact approx_sqrt_nonneg |].
  pose proof (predict_grade_outcome approx_sqrt approx_sqrt_nonneg trained_predictor
                campus_db "cs101" "ann") as H.
  assert (Hp : is_Some (profiles campus_db !! "ann")) by (by eexists).
  assert (Hc : is_Some (courses campus_db !! "cs101")) by (by eexists).
  destruct Hp as [profile Hp], Hc as [course Hc]. rewrite Hp, Hc in H.
  destruct H as (r & Hr & _ & Hrange & _). by exists r.
Defined.

(** ** What [recommend] returns *)

Lemma py_slice_to_take {A} (n : Z) (l : list A) :
  py_slice_to n l =
  take (Z.to_nat (if (0 <=? n)%Z then n else (Z.of_nat (length l) + n)%Z)) l.
Proof. unfold py_slice_to. by destruct (0 <=? n)%Z. Qed.

Section RecommendProperties.

Variable cosine_similarity : list Q → list Q → Q.
Variable set_iter : gset string → list string.
Hypothesis set_iter_perm : ∀ X, set_iter X ≡ₚ elements X.

Lemma hybrid_scores_length (cf_weight cb_weight : Q) (cf_scores cb_scores : gmap string Q) :
  length (hybrid_scores set_iter cf_weight cb_weight cf_scores cb_scores) =
  size (dom cf_scores ∪ dom cb_scores).
Proof using set_iter_perm.
  unfold hybrid_scores. by rewrite length_fmap, set_iter_perm.
Qed.

(** X8.  What [recommend] returns is sorted by hybrid score, descending,
    and names no course twice.  For [n >= 0] it has [min(n, candidates)]
    entries; a negative [n] is a Python slice bound and drops the [-n]
    entries of lowest score instead of returning nothing.  The entries
    returned are the best ones: each is a candidate paired with its hybrid
    score, the candidates split into the entries returned and the entries
    dropped, and no entry dropped has a higher score than an entry
    returned. *)
Theorem recommend_sorted_truncated (cr : CourseRecommender) (student_id : string)
    (enrolled_courses : list string) (n : Z) (cf_weight cb_weight : Q)
    (recs : list (string * Q)) :
  recommend cosine_similarity set_iter cr student_id enrolled_courses n
            cf_weight cb_weight = Some recs →
  StronglySorted (fun a b => (b.2 <= a.2)%Q) recs ∧
  NoDup recs.*1 ∧
  ∃ cf_scores cb_scores,
    get_collaborative_scores cr student_id 10 = Some cf_scores ∧
    get_content_based_scores cosine_similarity cr enrolled_courses = Some cb_scores ∧
    (let candidates := Z.of_nat (size (dom cf_scores ∪ dom cb_scores)) in
     Z.of_nat (length recs) =
       (if (0 <=? n)%Z then Z.min n candidates else Z.max 0 (candidates + n))%Z) ∧
    (∀ c v, (c, v) ∈ recs →
       c ∈ dom cf_scores ∪ dom cb_scores ∧
       v = spec_hybrid_score cf_weight cb_weight cf_scores cb_scores c) ∧
    ∃ dropped,
      (recs ++ dropped)%list ≡ₚ
        hybrid_scores set_iter cf_weight cb_weight cf_scores cb_scores ∧
      ∀ a b, a ∈ recs → b ∈ dropped → (b.2 <= a.2)%Q.
Proof using set_iter_perm.
  intros Hrec.
  destruct (recommend_Some_inv _ _ _ _ _ _ _ _ _ Hrec) as (cf & cb & Hcf & Hcb & ->).
  rewrite py_slice_to_take.
  set (hs := hybrid_scores set_iter cf_weight cb_weight cf cb).
  set (m := Z.to_nat _). split_and!.
  - apply StronglySorted_take_prefix, sort_desc_sorted.
  - rewrite fmap_take. eapply sublist_NoDup; [| apply sublist_take].
    unfold hs. rewrite sort_desc_perm, hybrid_scores_keys, set_iter_perm.
    apply NoDup_elements.
  - exists cf, cb. split; [done |]. split; [done |]. split_and!.
    + intros candidates. subst m.
      rewrite length_take, sort_desc_length. unfold hs.
      rewrite hybrid_scores_length.
      fold candidates. destruct (0 <=? n)%Z eqn:Hn.
      * apply Z.leb_le in Hn. subst candidates. lia.
      * apply Z.leb_gt in Hn. subst candidates. lia.
    + intros c v Hin. apply (hybrid_scores_elem set_iter set_iter_perm). fold hs.
      rewrite <- (sort_desc_perm hs). by eapply subseteq_take.
    + exists (drop m (sort_desc hs)). split.
      * by rewrite take_drop, sort_desc_perm.
      * intros a b Ha Hb.
        apply (StronglySorted_app_1_elem_of (fun a b => (b.2 <= a.2)%Q)
                 (take m (sort_desc hs)) (drop m (sort_desc hs))); [| done | done].
        rewrite take_drop. apply sort_desc_sorted.
Qed.

(** X9.  A student without a row in the user-item matrix and without
    usable enrolment history is recommended courses of the feature matrix
    only, all with the same score [cb_weight * 0.5], so that their order is
    the iteration order of a set.  When the feature matrix has a course
    and [n] is positive the list is not empty: the popularity fallback of
    the endpoint is not reached. *)
Theorem new_student_recommendations_are_flat (cr : CourseRecommender)
    (student_id : string) (enrolled_courses : list string) (n : Z)
    (cf_weight cb_weight : Q) :
  student_id ∉ df_index (user_item_matrix cr) →
  cold_start (course_features cr) enrolled_courses →
  ∃ recs,
    recommend cosine_similarity set_iter cr student_id enrolled_courses n
              cf_weight cb_weight = Some recs ∧
    (∀ c v, (c, v) ∈ recs →
       c ∈ course_ids (course_features cr) ∧
       v = (cf_weight * 0 + cb_weight * 0.5)%Q) ∧
    ((0 < n)%Z → course_ids (course_features cr) ≠ [] →
       recs ≠ [] ∧ or_fallback cr n enrolled_courses recs = recs).
Proof using set_iter_perm.
  intros Hnew Hcold.
  assert (Hcf : get_collaborative_scores cr student_id 10 = Some ∅)
    by (unfold get_collaborative_scores; by rewrite decide_False).
  pose proof (content_scores_cold cosine_similarity cr enrolled_courses Hcold) as Hcb.
  eexists. split; [by apply recommend_Some |].
  set (hs := hybrid_scores set_iter cf_weight cb_weight ∅
               (flat_scores (course_features cr))).
  assert (Helem : ∀ c v, (c, v) ∈ hs →
            c ∈ course_ids (course_features cr) ∧
            v = (cf_weight * 0 + cb_weight * 0.5)%Q).
  { intros c v [Hc ->]%hybrid_scores_elem; [| done].
    apply elem_of_union in Hc as [Hc | Hc];
      [rewrite dom_empty_L in Hc; by apply not_elem_of_empty in Hc |].
    apply elem_of_dom in Hc. rewrite flat_scores_lookup in Hc.
    destruct (decide _) as [Hid | _]; [| by destruct Hc].
    split; [done |]. unfold spec_hybrid_score.
    rewrite lookup_empty, flat_scores_lookup. by rewrite decide_True. }
  split.
  - intros c v Hin. apply Helem. apply py_slice_to_subseteq in Hin.
    by rewrite sort_desc_perm in Hin.
  - intros Hn Hids.
    assert (Hlen : length (sort_desc hs) ≠ 0%nat).
    { rewrite sort_desc_length.
      destruct (course_ids (course_features cr)) as [| c ids] eqn:Hc; [done |].
      assert (Hin : (c, spec_hybrid_score cf_weight cb_weight ∅
                          (flat_scores (course_features cr)) c) ∈ hs).
      { apply hybrid_scores_elem; [done |]. split; [| done].
        apply elem_of_union. right. apply elem_of_dom.
        rewrite flat_scores_lookup, Hc. rewrite decide_True by left. by eexists. }
      destruct hs; [by apply elem_of_nil in Hin | done]. }
    assert (Hne : py_slice_to n (sort_desc hs) ≠ []).
    { rewrite py_slice_to_take, (proj2 (Z.leb_le 0 n)) by lia.
      intros Hnil%(f_equal length). rewrite length_take in Hnil. simpl in Hnil. lia. }
    split; [done |]. unfold or_fallback.
    by destruct (py_slice_to n (sort_desc hs)).
Qed.

End RecommendProperties.

(** X8 on [campus]: [ann] has two candidates, one is returned and the
    other is dropped. *)
Lemma recommend_sorted_truncated_witness :
  (∀ X : gset string, elements X ≡ₚ elements X) ∧
  ∃ recs,
    recommend approx_cosine elements campus "ann" ["cs101"; "ma201"] 1 0.6 0.4 = Some recs ∧
    StronglySorted (fun a b => (b.2 <= a.2)%Q) recs ∧ length recs = 1%nat ∧
    ∃ dropped : list (string * Q),
      length dropped = 1%nat ∧ ∀ a b, a ∈ recs → b ∈ dropped → (b.2 <= a.2)%Q.
Proof.
  assert (Hperm : ∀ X : gset string, elements X ≡ₚ elements X) by done.
  split; [exact Hperm |].
  assert (Hrec : ∃ recs, recommend approx_cosine elements campus "ann"
                           ["cs101"; "ma201"] 1 0.6 0.4 = Some recs)
    by (by eexists).
  destruct Hrec as [recs Hrec]. exists recs. split; [done |].
  destruct (recommend_sorted_truncated approx_cosine elements Hperm _ _ _ _ _ _ _ Hrec)
    as (Hsorted & _ & cf & cb & Hcf & Hcb & _ & _ & dropped & Hsplit & Htop).
  assert (Hlen : length recs = 1%nat)
    by (vm_compute in Hrec; by injection Hrec as <-).
  split; [done |]. split; [done |]. exists dropped. split; [| done].
  apply Permutation_length in Hsplit.
  rewrite length_app, Hlen, (hybrid_scores_length elements Hperm) in Hsplit.
  assert (Hsize : (cf' ← get_collaborative_scores campus "ann" 10;
                   cb' ← get_content_based_scores approx_cosine campus ["cs101"; "ma201"];
                   Some (size (dom cf' ∪ dom cb'))) = Some 2%nat)
    by (vm_compute; reflexivity).
  rewrite Hcf, Hcb in Hsize. apply (inj Some) in Hsize.
  rewrite Hsize in Hsplit. lia.
Defined.

(** X9 on [campus] for a student the matrix does not know. *)
Lemma new_student_recommendations_are_flat_witness :
  (∀ X : gset string, elements X ≡ₚ elements X) ∧
  ("zed" ∉ df_index (user_item_matrix campus)) ∧
  cold_start (course_features campus) [] ∧
  ∃ recs, recommend approx_cosine elements campus "zed" [] 2 0.6 0.4 = Some recs ∧
          recs ≠ [].
Proof.
  assert (Hperm : ∀ X : gset string, elements X ≡ₚ elements X) by done.
  assert (Hnew : "zed" ∉ df_index (user_item_matrix campus))
    by (by apply (bool_decide_unpack _)).
  assert (Hcold : cold_start (course_features campus) []) by (by left).
  split_and!; try done.
  destruct (new_student_recommendations_are_flat approx_cosine elements Hperm
              campus "zed" [] 2 0.6%Q 0.4%Q Hnew Hcold) as (recs & Hrec & _ & Hne).
  exists recs. split; [done |]. by apply Hne.
Defined.

(** ** The popularity fallback of the endpoint *)

Lemma count_positive_labels (df : DataFrame) : (count_positive df).*1 = df_columns df.
Proof.
  unfold count_positive. rewrite fmap_imap. apply list_eq. intros i.
  rewrite list_lookup_imap. by destruct (df_columns df !! i).
Qed.

Lemma popular_courses_are_columns (cr : CourseRecommender) (n : Z) (c : string) :
  c ∈ get_popular_courses cr n → c ∈ df_columns (user_item_matrix cr).
Proof.
  unfold get_popular_courses, nlargest. intros (p & -> & Hp)%list_elem_of_fmap.
  apply (subseteq_take (Z.to_nat n)) in Hp. rewrite sort_desc_perm in Hp.
  rewrite <- count_positive_labels. apply list_elem_of_fmap. by exists p.
Qed.

Lemma fallback_length (cr : CourseRecommender) (n : Z) (enrolled_course_ids : list string) :
  (length (fallback_recommendations cr n enrolled_course_ids) ≤ Z.to_nat n)%nat.
Proof.
  unfold fallback_recommendations. rewrite length_fmap.
  etransitivity; [apply length_filter |].
  unfold get_popular_courses. rewrite length_fmap. apply nlargest_length.
Qed.

(** X10.  The list the endpoint substitutes when [recommend] returned
    nothing holds at most [n] courses, each a column of the user-item
    matrix that is not in the enrolment list, each with the score 0.5.
    The popular courses are cut to [n] before the enrolled ones are
    removed: when the [n] most popular courses are all enrolled the list is
    empty, whatever other courses exist. *)
Theorem fallback_excludes_enrolled (cr : CourseRecommender) (n : Z)
    (enrolled_course_ids : list string) :
  let fallback := fallback_recommendations cr n enrolled_course_ids in
  (∀ c s, (c, s) ∈ fallback →
     (c ∉ enrolled_course_ids) ∧ s = 0.5%Q ∧ c ∈ df_columns (user_item_matrix cr)) ∧
  (length fallback ≤ Z.to_nat n)%nat ∧
  ((∀ c, c ∈ get_popular_courses cr n → c ∈ enrolled_course_ids) → fallback = []).
Proof.
  intros fallback. subst fallback. unfold fallback_recommendations. split_and!.
  - intros c s (c' & [= -> ->] & Hin)%list_elem_of_fmap.
    apply list_elem_of_filter in Hin as [Hout Hpop].
    split_and!; [done | done | by eapply popular_courses_are_columns].
  - apply fallback_length.
  - intros Hall.
    destruct (filter _ _) as [| c l] eqn:Hf; [done |].
    assert (Hin : c ∈ filter (fun cid => cid ∉ enrolled_course_ids)
                    (get_popular_courses cr n)) by (rewrite Hf; left).
    apply list_elem_of_filter in Hin as [Hout Hpop]. by destruct (Hout (Hall c Hpop)).
Qed.

(** ** The range of the collaborative scores *)

Lemma weighted_sum_range (M : Q) (f g : string → Q) (nb : list string) :
  (∀ u, u ∈ nb → (0 <= f u)%Q ∧ (f u <= M)%Q) →
  (∀ u, u ∈ nb → (0 <= g u)%Q) →
  (0 <= py_sum ((fun u => f u * g u)%Q <$> nb))%Q ∧
  (py_sum ((fun u => f u * g u)%Q <$> nb) <= M * py_sum (g <$> nb))%Q ∧
  (0 <= py_sum (g <$> nb))%Q.
Proof.
  induction nb as [| u nb IH]; intros Hf Hg.
  - assert (H0 : (py_sum [] == 0)%Q) by reflexivity.
    rewrite !fmap_nil, H0. split_and!; lra.
  - rewrite !fmap_cons, !py_sum_cons.
    destruct IH as (IH1 & IH2 & IH3);
      [intros v Hv; apply Hf; by right | intros v Hv; apply Hg; by right |].
    destruct (Hf u) as [Hf0 HfM]; [left |]. pose proof (Hg u ltac:(left)) as Hg0.
    split_and!; nra.
Qed.

Lemma frame_cells_range (df : DataFrame) (lo hi : Q) (r c : string) :
  (lo <= 0)%Q → (0 <= hi)%Q →
  Forall (Forall (fun v => (lo <= v)%Q ∧ (v <= hi)%Q)) (df_values df) →
  (lo <= default 0 (df_loc df r c))%Q ∧ (default 0 (df_loc df r c) <= hi)%Q.
Proof.
  intros Hlo Hhi Hall. unfold df_loc.
  destruct (get_loc r (df_index df)) as [i |]; simpl; [| lra].
  destruct (get_loc c (df_columns df)) as [j |]; simpl; [| lra].
  destruct (df_values df !! i) as [row |] eqn:Hrow; simpl; [| lra].
  destruct (row !! j) as [v |] eqn:Hv; simpl; [| lra].
  rewrite Forall_forall in Hall.
  specialize (Hall row ltac:(by eapply list_elem_of_lookup_2)).
  rewrite Forall_forall in Hall. apply Hall. by eapply list_elem_of_lookup_2.
Qed.

(** X11.  In an aligned artifact whose ratings are grades, in [0, 4], and
    whose similarities to the student are not negative, every collaborative
    score lies in [0, 4]: the weighted average of grades is a grade, and
    the degenerate cases give 0.  So the division by 4.0 of the hybrid
    score yields a number in [0, 1].  The bound is the power of two 4:
    multiplying by it is exact in binary floating point, so that rounded
    products, sums and quotients of such grades stay below it as well. *)
Theorem collaborative_scores_in_grade_range (cr : CourseRecommender)
    (student_id : string) (k : Z) :
  aligned cr →
  student_id ∈ df_index (user_item_matrix cr) →
  (∀ u c, (0 <= rating_of cr u c)%Q ∧ (rating_of cr u c <= 4)%Q) →
  (∀ u, (0 <= similarity_of cr student_id u)%Q) →
  ∃ scores : gmap string Q,
    get_collaborative_scores cr student_id k = Some scores ∧
    ∀ c v, scores !! c = Some v → (0 <= v)%Q ∧ (v <= 4)%Q.
Proof.
  intros Hal Hs Hrating Hsim.
  destruct (collaborative_scores_lookup cr student_id k Hal Hs)
    as (users & m & _ & Hm & Hlook).
  exists m. split; [done |]. intros c v. rewrite Hlook.
  destruct (decide _) as [_ | _]; [| done]. intros [= <-].
  rewrite course_score_contributing.
  set (nb := contributing cr c users).
  destruct (weighted_sum_range 4 (fun u => rating_of cr u c)
              (similarity_of cr student_id) nb) as (Hw0 & HwM & Hs0);
    [intros u _; apply Hrating | intros u _; apply Hsim |].
  fold (weighted_sum cr student_id c nb) in Hw0, HwM.
  fold (similarity_sum cr student_id nb) in HwM, Hs0.
  destruct nb as [| u nb']; [split; lra |].
  destruct (Qlt_bool 0 _) eqn:Hq; [| split; lra].
  apply Qlt_bool_true in Hq. split.
  - apply Qle_shift_div_l; [done |]. lra.
  - apply Qle_shift_div_r; [done |]. lra.
Qed.

Lemma campus_cells_in_range (u c : string) :
  ((0 <= rating_of campus u c)%Q ∧ (rating_of campus u c <= 4)%Q) ∧
  (0 <= similarity_of campus u c)%Q.
Proof.
  split.
  - apply frame_cells_range; [done | done |]. simpl.
    repeat (constructor; [repeat (constructor; [by split |]); constructor |]).
    constructor.
  - apply (frame_cells_range (user_similarity campus) 0 1); [done | done |]. simpl.
    repeat (constructor; [repeat (constructor; [by split |]); constructor |]).
    constructor.
Qed.

(** X11 on [campus]. *)
Lemma collaborative_scores_in_grade_range_witness :
  aligned campus ∧ "ann" ∈ df_index (user_item_matrix campus) ∧
  ∃ scores : gmap string Q,
    get_collaborative_scores campus "ann" 10 = Some scores ∧
    ∀ c v, scores !! c = Some v → (0 <= v)%Q ∧ (v <= 4)%Q.
Proof.
  assert (Hs : "ann" ∈ df_index (user_item_matrix campus))
    by (by apply (bool_decide_unpack _)).
  split; [exact campus_aligned |]. split; [done |].
  apply (collaborative_scores_in_grade_range campus "ann" 10 campus_aligned Hs).
  - intros u c. apply campus_cells_in_range.
  - intros u. apply campus_cells_in_range.
Defined.

(** ** The endpoint [/recommendations] *)

Lemma collaborative_scores_is_Some (cr : CourseRecommender) (student_id : string) (k : Z) :
  aligned cr → is_Some (get_collaborative_scores cr student_id k).
Proof.
  intros Hal. destruct (decide (student_id ∈ df_index (user_item_matrix cr))) as [Hs | Hs].
  - destruct (collaborative_scores_lookup cr student_id k Hal Hs) as (? & m & _ & -> & _).
    by eexists.
  - unfold get_collaborative_scores. rewrite decide_False by done. by eexists.
Qed.

Lemma content_scores_is_Some (cosine_similarity : list Q → list Q → Q)
    (cr : CourseRecommender) (enrolled_courses : list string) :
  length (features (course_features cr)) = length (course_ids (course_features cr)) →
  is_Some (get_content_based_scores cosine_similarity cr enrolled_courses).
Proof.
  intros Hlen.
  destruct (decide (enrolled_courses = [] ∨
                    enrolled_indices (course_features cr) enrolled_courses = []))
    as [Hcold | Hwarm].
  - apply cold_start_iff in Hcold. rewrite content_scores_cold by done. by eexists.
  - rewrite <- cold_start_iff in Hwarm.
    destruct (content_scores_warm cosine_similarity cr enrolled_courses Hlen Hwarm)
      as (m & -> & _).
    by eexists.
Qed.

Lemma course_recommendations_spec (np_sqrt : Q → Q) (gp : option GradePredictor)
    (db : Tables) (user_id : string) (recommendations : list (string * Q))
    (r : CourseRecommendation) :
  r ∈ course_recommendations np_sqrt gp db user_id recommendations →
  ∃ score course,
    (rec_course_id r, score) ∈ recommendations ∧
    courses db !! rec_course_id r = Some course ∧
    rec_score r = py_round3 score ∧
    rec_credits r = co_credits course ∧
    rec_predicted_grade r = predicted_grade_for np_sqrt gp db user_id course.
Proof.
  unfold course_recommendations. intros ([c score] & Hin & Hr)%list_elem_of_omap.
  simpl in Hr. destruct (courses db !! c) as [course |] eqn:Hc; [| done].
  simpl in Hr. injection Hr as <-. simpl. by exists score, course.
Qed.

Lemma predicted_grade_for_range (np_sqrt : Q → Q) (gp : option GradePredictor)
    (db : Tables) (user_id : string) (course : CourseRow) (g : Q) :
  predicted_grade_for np_sqrt gp db user_id course = Some g →
  (0 <= g)%Q ∧ (g <= 4)%Q.
Proof.
  unfold predicted_grade_for. destruct gp as [gp |]; [| done].
  destruct (profiles db !! user_id) as [profile |]; [| done]. intros Heq.
  match type of Heq with Some (py_round2 (predict ?s ?g0 ?f).1) = _ =>
    destruct (predict_point_clipped s g0 f) as [H0 H4] end.
  injection Heq as <-. apply py_round2_unit_range; [exact H0 | exact H4].
Qed.

Lemma length_omap_le {A B} (f : A → option B) (l : list A) :
  (length (omap f l) ≤ length l)%nat.
Proof.
  induction l as [| x l IH]; [done |].
  change (omap f (x :: l)) with
    (match f x with Some y => y :: omap f l | None => omap f l end).
  destruct (f x); simpl; lia.
Qed.

Section RecommendationsEndpoint.

Variable np_sqrt : Q → Q.
Variable cosine_similarity : list Q → list Q → Q.
Variable set_iter : gset string → list string.

(** X12.  On an aligned artifact whose feature rows match its course IDs,
    [/recommendations] answers a request for the caller's own list with
    [n >= 0]: at most [n] entries, each for a course found in the course
    table and carrying its credits, with the score rounded to three
    decimals and a predicted grade that, when present, lies in [0, 4].
    Courses the recommender names but the table lacks are left out. *)
Theorem get_recommendations_outcome (cr : CourseRecommender)
    (gp : option GradePredictor) (db : Tables) (n : Z) (user_id : string) :
  aligned cr →
  length (features (course_features cr)) = length (course_ids (course_features cr)) →
  (0 ≤ n)%Z →
  ∃ out,
    get_recommendations np_sqrt cosine_similarity set_iter (Some cr) gp db
      user_id n user_id = Returns out ∧
    (length out ≤ Z.to_nat n)%nat ∧
    ∀ r, r ∈ out →
      ∃ course,
        courses db !! rec_course_id r = Some course ∧
        rec_credits r = co_credits course ∧
        match rec_predicted_grade r with
        | Some g => (0 <= g)%Q ∧ (g <= 4)%Q
        | None => True
        end.
Proof.
  intros Hal Hlen Hn. unfold get_recommendations.
  rewrite decide_False by (by intros ?).
  set (enrolled := en_course_id <$> enrollments_of db user_id).
  assert (Hrec : is_Some (recommend_default cosine_similarity set_iter cr user_id
                            enrolled n)).
  { unfold recommend_default, recommend.
    destruct (collaborative_scores_is_Some cr user_id 10 Hal) as [cf ->].
    destruct (content_scores_is_Some cosine_similarity cr enrolled Hlen) as [cb ->].
    by eexists. }
  destruct Hrec as [recs Hrec]. rewrite Hrec. simpl.
  eexists. split; [done |]. split.
  - unfold course_recommendations.
    etransitivity; [apply length_omap_le |].
    unfold or_fallback. destruct recs as [| p recs'].
    + apply fallback_length.
    + unfold recommend_default, recommend in Hrec.
      destruct (get_collaborative_scores cr user_id 10) as [cf |]; [| done].
      destruct (get_content_based_scores cosine_similarity cr enrolled) as [cb |];
        [| done].
      simpl in Hrec. injection Hrec as Hrec. rewrite <- Hrec.
      by apply py_slice_to_length.
  - intros r Hr.
    destruct (course_recommendations_spec _ _ _ _ _ _ Hr)
      as (score & course & _ & Hc & _ & Hcr & Hpg).
    exists course. split; [done |]. split; [done |].
    destruct (rec_predicted_grade r) as [g |] eqn:Hg; [| done].
    eapply predicted_grade_for_range. by rewrite <- Hpg.
Qed.

End RecommendationsEndpoint.

(** X12 on [campus] and [campus_db]. *)
Lemma get_recommendations_outcome_witness :
  aligned campus ∧
  ∃ out,
    get_recommendations approx_sqrt approx_cosine elements (Some campus)
      (Some trained_predictor) campus_db "ann" 2 "ann" = Returns out ∧
    (length out ≤ 2)%nat.
Proof.
  split; [exact campus_aligned |].
  destruct (get_recommendations_outcome approx_sqrt approx_cosine elements campus
              (Some trained_predictor) campus_db 2 "ann" campus_aligned eq_refl)
    as (out & Hout & Hlen & _); [lia |].
  exists out. by split.
Defined.

(** ** The statistics of [/stats] *)

Lemma filter_disjoint_length {A} (P R : A → Prop) `{!∀ x, Decision (P x)}
    `{!∀ x, Decision (R x)} (l : list A) :
  (∀ x, P x → R x → False) →
  (length (filter P l) + length (filter R l) ≤ length l)%nat ∧
  ((∀ x, x ∈ l → P x ∨ R x) →
     (length (filter P l) + length (filter R l))%nat = length l).
Proof.
  intros Hdisj. induction l as [| x l [IH1 IH2]]; [done |].
  rewrite !filter_cons.
  destruct (decide (P x)) as [HP | HP], (decide (R x)) as [HR | HR];
    try (by destruct (Hdisj x)); simpl.
  - split; [lia |]. intros Hall. rewrite <- IH2; [lia |].
    intros y Hy. apply Hall. by right.
  - split; [lia |]. intros Hall. rewrite <- IH2; [lia |].
    intros y Hy. apply Hall. by right.
  - split; [lia |]. intros Hall. destruct (Hall x); [left | done | done].
Qed.

Lemma get_stats_fields (db : Tables) (user_id : string) :
  enrollments_of db user_id ≠ [] →
  get_stats db user_id =
  {| total_courses := Z.of_nat (length (enrollments_of db user_id));
     completed_courses :=
       Z.of_nat (length (filter (fun e => en_status e = "completed")
                           (enrollments_of db user_id)));
     in_progress_courses :=
       Z.of_nat (length (filter (fun e => en_status e = "in_progress")
                           (enrollments_of db user_id)));
     average_grade :=
       py_round2 (mean_or_zero
                    (omap en_grade (filter (fun e => en_status e = "completed")
                                      (enrollments_of db user_id))));
     total_credits :=
       py_sum_Z (select_credits_in db (en_course_id <$> enrollments_of db user_id));
     current_gpa :=
       py_round2 (mean_or_zero
                    (omap en_grade (filter (fun e => en_status e = "completed")
                                      (enrollments_of db user_id)))) |}.
Proof. unfold get_stats. by destruct (enrollments_of db user_id). Qed.

(** X13.  In the statistics of a student the completed and the in-progress
    courses never add up to more than the total, and add up to it exactly
    when every enrolment has one of these two statuses; the total counts
    enrolments, not distinct courses. *)
Theorem stats_counts_add_up (db : Tables) (user_id : string) :
  let s := get_stats db user_id in
  total_courses s = Z.of_nat (length (enrollments_of db user_id)) ∧
  (0 ≤ completed_courses s)%Z ∧ (0 ≤ in_progress_courses s)%Z ∧
  (completed_courses s + in_progress_courses s ≤ total_courses s)%Z ∧
  ((∀ e, e ∈ enrollments_of db user_id →
      en_status e = "completed" ∨ en_status e = "in_progress") →
   (completed_courses s + in_progress_courses s = total_courses s)%Z).
Proof.
  intros s. subst s.
  destruct (decide (enrollments_of db user_id = [])) as [Hnil | Hne].
  - unfold get_stats. rewrite Hnil. simpl. split_and!; try done; lia.
  - rewrite get_stats_fields by done. simpl.
    destruct (filter_disjoint_length
                (fun e => en_status e = "completed")
                (fun e => en_status e = "in_progress")
                (enrollments_of db user_id)) as [Hle Heq].
    { intros e H1 H2. by rewrite H1 in H2. }
    split_and!; try lia. intros Hall. specialize (Heq Hall). lia.
Qed.

(** X14.  The average grade of the statistics is taken over the graded
    completed enrolments only; with those grades in [0, 4] the average and
    the GPA, which is the same number, lie in [0, 4] after rounding, and
    they are 0 when nothing is graded. *)
Theorem stats_average_in_range (db : Tables) (user_id : string) :
  (∀ e g, e ∈ enrollments_of db user_id → en_status e = "completed" →
     en_grade e = Some g → (0 <= g)%Q ∧ (g <= 4)%Q) →
  let s := get_stats db user_id in
  ((0 <= average_grade s)%Q ∧ (average_grade s <= 4)%Q) ∧
  current_gpa s = average_grade s ∧
  (omap en_grade (filter (fun e => en_status e = "completed")
                    (enrollments_of db user_id)) = [] →
   (average_grade s == 0)%Q).
Proof.
  intros Hrange s. subst s.
  destruct (decide (enrollments_of db user_id = [])) as [Hnil | Hne].
  - unfold get_stats. rewrite Hnil. simpl. split; [by split |]. by split.
  - rewrite get_stats_fields by done. simpl.
    set (grades := omap en_grade _).
    assert (Hg : Forall (fun v => (0 <= v)%Q ∧ (v <= 4)%Q) grades).
    { apply Forall_omap_range. intros e g [Hst He]%list_elem_of_filter Hgr.
      by eapply Hrange. }
    destruct (mean_or_zero_bounds 0 4 grades) as [H0 H4]; [lra | lra | done |].
    split; [by apply py_round2_unit_range |]. split; [done |].
    intros ->. reflexivity.
Qed.

(** X14 for [ann] in [campus_db]. *)
Lemma stats_average_in_range_witness :
  (0 <= average_grade (get_stats campus_db "ann"))%Q ∧
  (average_grade (get_stats campus_db "ann") <= 4)%Q.
Proof.
  apply (stats_average_in_range campus_db "ann").
  intros e g He Hst Hg. apply list_elem_of_filter in He as [_ He].
  literal_rows He; simpl in Hg; try done; injection Hg as <-; by split.
Defined.

Lemma select_credits_in_ext (db : Tables) (ids ids' : list string) :
  (∀ c, c ∈ ids ↔ c ∈ ids') → select_credits_in db ids = select_credits_in db ids'.
Proof.
  intros Hsame. unfold select_credits_in. f_equal.
  apply list_filter_iff. intros [c row]. simpl. apply Hsame.
Qed.

(** X15.  The total of credits counts every enrolled course once, however
    often the student enrolled in it, and counts courses in progress too:
    one more enrolment in a course already enrolled raises the number of
    courses by one and leaves the credits unchanged. *)
Theorem stats_credits_count_courses_once (db : Tables) (user_id : string)
    (e : EnrollmentRow) :
  en_student_id e = user_id →
  en_course_id e ∈ en_course_id <$> enrollments_of db user_id →
  let db' := {| profiles := profiles db; courses := courses db;
                enrollments := e :: enrollments db;
                interactions := interactions db |} in
  total_credits (get_stats db' user_id) = total_credits (get_stats db user_id) ∧
  total_courses (get_stats db' user_id) = (total_courses (get_stats db user_id) + 1)%Z.
Proof.
  intros Hu Hc db'.
  assert (Hrows : enrollments_of db' user_id = e :: enrollments_of db user_id).
  { unfold enrollments_of, db'. simpl. by rewrite filter_cons, decide_True. }
  assert (Hne : enrollments_of db user_id ≠ []).
  { intros Hnil. rewrite Hnil in Hc. by apply elem_of_nil in Hc. }
  rewrite (get_stats_fields db') by (by rewrite Hrows).
  rewrite (get_stats_fields db) by done. simpl. rewrite Hrows. split.
  - f_equal. rewrite fmap_cons.
    transitivity (select_credits_in db
                    (en_course_id e :: (en_course_id <$> enrollments_of db user_id)));
      [done |].
    apply select_credits_in_ext. intros c. rewrite elem_of_cons.
    split; [by intros [-> | ?] | by right].
  - simpl length. lia.
Qed.

(** X15 on [campus_db]: [ann] enrols in [cs101] once more. *)
Lemma stats_credits_count_courses_once_witness :
  let e := {| en_student_id := "ann"; en_course_id := "cs101";
              en_status := "in_progress"; en_grade := None;
              en_attendance_rate := None; en_assignment_completion_rate := None |} in
  let db' := {| profiles := profiles campus_db; courses := courses campus_db;
                enrollments := e :: enrollments campus_db;
                interactions := interactions campus_db |} in
  total_credits (get_stats db' "ann") = total_credits (get_stats campus_db "ann").
Proof.
  intros e db'.
  apply (stats_credits_count_courses_once campus_db "ann" e); [done |].
  by apply (bool_decide_unpack _).
Defined.

(** ** The trainer of the recommender *)

Lemma insert_label_perm (x : string) (l : list string) : insert_label x l ≡ₚ x :: l.
Proof.
  induction l as [| y l IH]; simpl; [done |].
  destruct (String.leb x y); [done |]. rewrite IH. apply perm_swap.
Qed.

Lemma axis_labels_perm (l : list string) : axis_labels l ≡ₚ remove_dups l.
Proof.
  unfold axis_labels. induction (remove_dups l) as [| x l' IH]; simpl; [done |].
  by rewrite insert_label_perm, IH.
Qed.

Lemma axis_labels_NoDup (l : list string) : NoDup (axis_labels l).
Proof. rewrite axis_labels_perm. apply NoDup_remove_dups. Qed.

Lemma axis_labels_elem (x : string) (l : list string) : x ∈ axis_labels l ↔ x ∈ l.
Proof. by rewrite axis_labels_perm, elem_of_remove_dups. Qed.

Lemma build_user_item_matrix_wf (enrollments_df : list EnrollmentRow) :
  wf_frame (build_user_item_matrix enrollments_df).
Proof.
  unfold wf_frame, build_user_item_matrix. simpl. split_and!.
  - apply axis_labels_NoDup.
  - apply axis_labels_NoDup.
  - by rewrite length_fmap.
  - apply Forall_fmap, Forall_forall. intros s _. simpl. by rewrite length_fmap.
Qed.

Lemma build_user_item_matrix_loc (enrollments_df : list EnrollmentRow) (s c : string) :
  s ∈ df_index (build_user_item_matrix enrollments_df) →
  c ∈ df_columns (build_user_item_matrix enrollments_df) →
  df_loc (build_user_item_matrix enrollments_df) s c =
  Some (pivot_cell (ratings_df enrollments_df) s c).
Proof.
  intros Hs Hc. unfold df_loc.
  destruct (get_loc_Some _ _ Hs) as (i & -> & Hi).
  destruct (get_loc_Some _ _ Hc) as (j & -> & Hj). simpl in *.
  rewrite list_lookup_fmap, Hi. simpl. by rewrite list_lookup_fmap, Hj.
Qed.

Lemma ratings_df_elem (enrollments_df : list EnrollmentRow) (s c : string) (g : Q) :
  (s, c, g) ∈ ratings_df enrollments_df ↔
  ∃ e, e ∈ enrollments_df ∧ en_status e = "completed" ∧
       en_student_id e = s ∧ en_course_id e = c ∧ g = default 2.0%Q (en_grade e).
Proof.
  unfold ratings_df. rewrite list_elem_of_fmap. split.
  - intros (e & [= -> -> ->] & [Hst He]%list_elem_of_filter). by exists e.
  - intros (e & He & Hst & <- & <- & ->). exists e. split; [done |].
    by apply list_elem_of_filter.
Qed.

Lemma pivot_cell_range (enrollments_df : list EnrollmentRow) (s c : string) :
  (∀ e g, e ∈ enrollments_df → en_grade e = Some g → (0 <= g)%Q ∧ (g <= 4)%Q) →
  (0 <= pivot_cell (ratings_df enrollments_df) s c)%Q ∧
  (pivot_cell (ratings_df enrollments_df) s c <= 4)%Q.
Proof.
  intros Hrange. unfold pivot_cell.
  set (grades := omap _ _).
  assert (Hg : Forall (fun v => (0 <= v)%Q ∧ (v <= 4)%Q) grades).
  { apply Forall_forall. intros v ([[s' c'] g] & Hin & Hv)%list_elem_of_omap.
    simpl in Hv. destruct (decide _); [| done]. injection Hv as <-.
    apply ratings_df_elem in Hin as (e & He & _ & _ & _ & ->).
    destruct (en_grade e) as [g' |] eqn:Hgr; simpl; [by eapply Hrange | by split]. }
  destruct grades as [| g grades]; [by split |]. by apply mean_bounds.
Qed.

(** X16.  The user-item matrix the trainer builds is a well-shaped frame
    that reflects completed enrolments only: a student has a row exactly
    when some enrolment of theirs is completed, a course has a column
    exactly when some completed enrolment names it, every cell is read
    without error, a pair without completed enrolment has the cell 0, and
    with grades in [0, 4] (a missing grade counting 2.0) every cell lies in
    [0, 4]. *)
Theorem trained_matrix_reflects_completed (enrollments_df : list EnrollmentRow) :
  let m := build_user_item_matrix enrollments_df in
  wf_frame m ∧
  (∀ s, s ∈ df_index m ↔
        ∃ e, e ∈ enrollments_df ∧ en_status e = "completed" ∧ en_student_id e = s) ∧
  (∀ c, c ∈ df_columns m ↔
        ∃ e, e ∈ enrollments_df ∧ en_status e = "completed" ∧ en_course_id e = c) ∧
  (∀ s c, s ∈ df_index m → c ∈ df_columns m →
     ∃ v, df_loc m s c = Some v ∧
          ((∀ e, e ∈ enrollments_df → en_status e = "completed" →
              en_student_id e = s → en_course_id e ≠ c) → v = 0%Q) ∧
          ((∀ e g, e ∈ enrollments_df → en_grade e = Some g →
              (0 <= g)%Q ∧ (g <= 4)%Q) → (0 <= v)%Q ∧ (v <= 4)%Q)).
Proof.
  intros m. subst m. split_and!.
  - apply build_user_item_matrix_wf.
  - intros s. unfold build_user_item_matrix. simpl.
    rewrite axis_labels_elem, list_elem_of_fmap. split.
    + intros ([[s' c] g] & -> & (e & He & Hst & Hs & _)%ratings_df_elem).
      by exists e.
    + intros (e & He & Hst & <-).
      exists (en_student_id e, en_course_id e, default 2.0%Q (en_grade e)).
      split; [done |]. apply ratings_df_elem. by exists e.
  - intros c. unfold build_user_item_matrix. simpl.
    rewrite axis_labels_elem, list_elem_of_fmap. split.
    + intros ([[s c'] g] & -> & (e & He & Hst & _ & Hc & _)%ratings_df_elem).
      by exists e.
    + intros (e & He & Hst & <-).
      exists (en_student_id e, en_course_id e, default 2.0%Q (en_grade e)).
      split; [done |]. apply ratings_df_elem. by exists e.
  - intros s c Hs Hc. eexists. split; [by apply build_user_item_matrix_loc |]. split.
    + intros Hnone. unfold pivot_cell.
      destruct (omap _ _) as [| g grades] eqn:Hg; [done |]. exfalso.
      assert (Hin : g ∈ omap (fun r : string * string * Q =>
                                if decide (r.1.1 = s ∧ r.1.2 = c) then Some r.2 else None)
                             (ratings_df enrollments_df)) by (rewrite Hg; left).
      apply list_elem_of_omap in Hin as ([[s' c'] g'] & Hin & Hv). simpl in Hv.
      destruct (decide _) as [[-> ->] | _]; [| done].
      apply ratings_df_elem in Hin as (e & He & Hst & Hes & Hec & _).
      by apply (Hnone e).
    + apply pivot_cell_range.
Qed.

Section TrainerProperties.

Variable cosine_similarity : list Q → list Q → Q.
Variable fit_transform : list string → option (list (list Q)).

(** When the vectorizer returns, it returns one row per document. *)
Hypothesis fit_transform_rows :
  ∀ docs rows, fit_transform docs = Some rows → length rows = length docs.

Lemma train_Some_inv (enrollments_df : list EnrollmentRow)
    (courses_df : list (string * option (list string))) (cr : CourseRecommender) :
  train cosine_similarity fit_transform enrollments_df courses_df = Some cr →
  user_item_matrix cr = build_user_item_matrix enrollments_df ∧
  compute_user_similarity cosine_similarity (build_user_item_matrix enrollments_df)
    = Some (user_similarity cr) ∧
  extract_course_features fit_transform courses_df = Some (course_features cr).
Proof.
  unfold train. destruct enrollments_df as [| e es]; [done |].
  destruct (compute_user_similarity _ _) as [sim |]; [| done]. simpl.
  destruct (extract_course_features _ _) as [cf |]; [| done]. simpl.
  by intros [= <-].
Qed.

Lemma train_aligned (enrollments_df : list EnrollmentRow)
    (courses_df : list (string * option (list string))) (cr : CourseRecommender) :
  train cosine_similarity fit_transform enrollments_df courses_df = Some cr →
  aligned cr.
Proof.
  intros (Huim & Hsim & _)%train_Some_inv.
  pose proof (build_user_item_matrix_wf enrollments_df) as Hwf.
  set (m := build_user_item_matrix enrollments_df) in *.
  unfold compute_user_similarity in Hsim.
  destruct (df_values m) as [| r rs] eqn:Hv; [done |].
  apply (inj Some) in Hsim.
  unfold aligned. rewrite Huim, <- Hsim. cbn [df_index df_columns df_values].
  split_and!; [exact Hwf | | done | done].
  destruct Hwf as (Hnd & _ & Hrows & _). rewrite Hv in Hrows.
  unfold wf_frame. cbn [df_index df_columns df_values].
  split_and!; [done | done | by rewrite length_fmap |].
  apply Forall_fmap, Forall_forall. intros r' _. simpl. by rewrite length_fmap.
Qed.

(** X17.  The training stops without an artifact when no enrolment is
    completed.  An artifact it does build is aligned, with one feature row
    per course ID: on it [recommend] never raises, whoever the student,
    whatever the enrolment list, [n] and the weights, and a student none of
    whose enrolments is completed has no row and gets no collaborative
    score. *)
Theorem recommend_never_raises_on_trained_artifact
    (set_iter : gset string → list string) (enrollments_df : list EnrollmentRow)
    (courses_df : list (string * option (list string))) :
  ((∀ e, e ∈ enrollments_df → en_status e ≠ "completed") →
     train cosine_similarity fit_transform enrollments_df courses_df = None) ∧
  (∀ cr,
     train cosine_similarity fit_transform enrollments_df courses_df = Some cr →
     aligned cr ∧
     length (features (course_features cr)) = length (course_ids (course_features cr)) ∧
     (∀ student_id enrolled_courses n cf_weight cb_weight,
        is_Some (recommend cosine_similarity set_iter cr student_id enrolled_courses n
                   cf_weight cb_weight)) ∧
     (∀ student_id k,
        (∀ e, e ∈ enrollments_df → en_student_id e = student_id →
           en_status e ≠ "completed") →
        get_collaborative_scores cr student_id k = Some ∅)).
Proof using fit_transform_rows.
  split.
  - intros Hnone.
    assert (Hr : ratings_df enrollments_df = []).
    { unfold ratings_df. destruct (filter _ _) as [| x l] eqn:Hf; [done |].
      assert (Hin : x ∈ filter (fun e => en_status e = "completed") enrollments_df)
        by (rewrite Hf; left).
      apply list_elem_of_filter in Hin as [Hst Hin]. by destruct (Hnone x Hin). }
    assert (Hsim : compute_user_similarity cosine_similarity
                     (build_user_item_matrix enrollments_df) = None)
      by (unfold compute_user_similarity, build_user_item_matrix; by rewrite Hr).
    unfold train. rewrite Hsim. by destruct enrollments_df.
  - intros cr Htrain.
    assert (Hal : aligned cr) by (by eapply train_aligned).
    destruct (train_Some_inv _ _ _ Htrain) as (Huim & _ & Hcf).
    assert (Hlen : length (features (course_features cr)) =
                   length (course_ids (course_features cr))).
    { unfold extract_course_features in Hcf.
      destruct courses_df as [| c0 cs0]; [done |].
      destruct (fit_transform _) as [rows |] eqn:Hft; [| done]. simpl in Hcf.
      injection Hcf as <-. simpl.
      by rewrite (fit_transform_rows _ _ Hft), !length_fmap. }
    split_and!; [done | done | |].
    + intros student_id enrolled_courses n cf_weight cb_weight. unfold recommend.
      destruct (collaborative_scores_is_Some cr student_id 10 Hal) as [cf ->].
      destruct (content_scores_is_Some cosine_similarity cr enrolled_courses Hlen)
        as [cb ->].
      by eexists.
    + intros student_id k Hnone. unfold get_collaborative_scores.
      rewrite decide_False; [done |]. rewrite Huim.
      unfold build_user_item_matrix. simpl.
      rewrite axis_labels_elem, list_elem_of_fmap.
      intros ([[s c] g] & -> & (e & He & Hst & Hs & _)%ratings_df_elem).
      by apply (Hnone e).
Qed.

End TrainerProperties.

(** X17 with the rows of [campus_db] and a one-feature vectorizer: [dan]
    has only a course in progress. *)
Lemma recommend_never_raises_on_trained_artifact_witness :
  (∀ docs rows, unit_rows docs = Some rows → length rows = length docs) ∧
  ∃ cr,
    train approx_cosine unit_rows (enrollments campus_db)
      [("cs101", Some ["python"; "loops"]); ("ma201", None)] = Some cr ∧
    is_Some (recommend approx_cosine elements cr "dan" ["ma201"] 5 0.6 0.4) ∧
    get_collaborative_scores cr "dan" 10 = Some ∅.
Proof.
  assert (Hrows : ∀ docs rows, unit_rows docs = Some rows → length rows = length docs).
  { intros docs rows [= <-]. by rewrite length_fmap. }
  split; [exact Hrows |].
  assert (Htrain : is_Some (train approx_cosine unit_rows (enrollments campus_db)
                              [("cs101", Some ["python"; "loops"]); ("ma201", None)]))
    by (by eexists).
  destruct Htrain as [cr Htrain]. exists cr. split; [done |].
  destruct (proj2 (recommend_never_raises_on_trained_artifact approx_cosine unit_rows
                     Hrows elements (enrollments campus_db)
                     [("cs101", Some ["python"; "loops"]); ("ma201", None)])
              cr Htrain) as (_ & _ & Hrec & Hcold).
  split; [apply Hrec |]. apply Hcold.
  intros e He Hdan. literal_rows He; simpl in Hdan; try done.
Defined.

(** ** The sample data generator *)

Lemma py_round1_mono (x y : Q) : (x <= y)%Q → (py_round1 x <= py_round1 y)%Q.
Proof.
  intros Hxy. unfold py_round1.
  assert (Hz : (round_half_even (x * 10) ≤ round_half_even (y * 10))%Z)
    by (apply round_half_even_mono; lra).
  rewrite Zle_Qle in Hz. unfold Qdiv.
  apply Qmult_le_compat_r; [exact Hz | discriminate].
Qed.

Lemma py_round1_rate_range (x : Q) :
  (50 <= x)%Q → (x <= 100)%Q → (50 <= py_round1 x)%Q ∧ (py_round1 x <= 100)%Q.
Proof.
  intros H0 H4. split.
  - apply (Qle_trans _ (py_round1 50)); [discriminate | by apply py_round1_mono].
  - apply (Qle_trans _ (py_round1 100)); [by apply py_round1_mono | discriminate].
Qed.

Lemma sample_grade_range (difficulty : string) (student_ability : Q) (d : Draws) :
  (0 <= sample_grade difficulty student_ability d)%Q ∧
  (sample_grade difficulty student_ability d <= 4)%Q.
Proof. unfold sample_grade, py_max, py_min. q_tests; split; lra. Qed.

(** X18.  Whatever is drawn within the ranges of the [uniform] calls, the
    generated enrolment has a grade exactly when its status is completed,
    and that grade lies in [0, 4]; the first [n - 2] enrolments of a
    student are completed; attendance and completion lie in [50, 100], and
    at least 85 when the grade before rounding is above 3.0. *)
Theorem sample_enrollment_in_range (student_id course_id difficulty : string)
    (student_ability : Q) (i n : Z) (d : Draws) :
  draws_in_range d →
  let e := sample_enrollment student_id course_id difficulty student_ability i n d in
  (is_Some (en_grade e) ↔ en_status e = "completed") ∧
  (∀ g, en_grade e = Some g → (0 <= g)%Q ∧ (g <= 4)%Q) ∧
  ((i < n - 2)%Z → en_status e = "completed") ∧
  (en_status e = "completed" ∨ en_status e = "in_progress") ∧
  (∃ a c, en_attendance_rate e = Some a ∧ en_assignment_completion_rate e = Some c ∧
          ((50 <= a)%Q ∧ (a <= 100)%Q) ∧ ((50 <= c)%Q ∧ (c <= 100)%Q) ∧
          ((3.0 < sample_grade difficulty student_ability d)%Q →
             (85 <= a)%Q ∧ (85 <= c)%Q)).
Proof.
  intros (Hn & Ha & Hc & Hah & Hch & Hal & Hcl & Hst) e. subst e.
  unfold sample_enrollment. cbn [en_grade en_status en_attendance_rate
                                 en_assignment_completion_rate].
  pose proof (sample_grade_range difficulty student_ability d) as [Hg0 Hg4].
  set (grade := sample_grade difficulty student_ability d) in *.
  set (status := if (i <? n - 2)%Z then "completed" else status_choice d).
  split_and!.
  - destruct (decide (status = "completed")) as [Heq | Hne].
    + split; [done | by eexists].
    + split; [by intros [? ?] | done].
  - intros g. destruct (decide (status = "completed")); [| done]. intros [= <-].
    by apply py_round2_unit_range.
  - intros Hi. subst status. by rewrite (proj2 (Z.ltb_lt _ _) Hi).
  - subst status. destruct (i <? n - 2)%Z; [by left | done].
  - do 2 eexists. split; [done |]. split; [done |].
    destruct (Qlt_bool 3.0 grade) eqn:H3;
      [apply Qlt_bool_true in H3 | apply Qlt_bool_false in H3].
    + split; [apply py_round1_rate_range; lra |].
      split; [apply py_round1_rate_range; lra |].
      intros _. split.
      * apply (Qle_trans _ (py_round1 85)); [discriminate | apply py_round1_mono; lra].
      * apply (Qle_trans _ (py_round1 85)); [discriminate | apply py_round1_mono; lra].
    + destruct (Qlt_bool grade 2.0);
        (split; [apply py_round1_rate_range; lra |];
         split; [apply py_round1_rate_range; lra |]);
        intros Hgt; lra.
Qed.

(** X18 for the first of eight courses, a beginner course, of an able
    student. *)
Lemma sample_enrollment_in_range_witness :
  draws_in_range demo_draws ∧
  let e := sample_enrollment "s1" "cs101" "Beginner" 0.4 0 8 demo_draws in
  en_status e = "completed" ∧
  ∀ g, en_grade e = Some g → (0 <= g)%Q ∧ (g <= 4)%Q.
Proof.
  assert (Hd : draws_in_range demo_draws).
  { unfold draws_in_range. simpl. split_and!; try done. by right. }
  split; [exact Hd |]. intros e.
  destruct (sample_enrollment_in_range "s1" "cs101" "Beginner" 0.4 0 8 demo_draws Hd)
    as (_ & Hg & Hfirst & _).
  split; [by apply Hfirst | exact Hg].
Defined.

(** X19 on [campus]: the similarity of [ann] to herself, 1, is strictly the
    largest of her column. *)
Lemma similar_users_excludes_strict_self_witness :
  aligned campus ∧ "ann" ∈ df_index (user_item_matrix campus) ∧
  ∃ users, similar_users campus "ann" 10 = Some users ∧
           ("ann" ∉ users) ∧ (length users ≤ 10)%nat.
Proof.
  assert (Hs : "ann" ∈ df_index (user_item_matrix campus))
    by (by apply (bool_decide_unpack _)).
  split; [exact campus_aligned |]. split; [done |].
  apply (similar_users_excludes_strict_self campus "ann" 10 campus_aligned Hs).
  intros u Hu Hne. literal_rows Hu; try done.
Defined.
